(** * TheMovieDb info provider

    A shallow embedding of
    [couchpotato/core/media/movie/providers/info/themoviedb.py]:
    the class [TheMovieDb] with its operations [search], [getInfo],
    [parseMovie], [getImage], [getMultImages], [request] and [isMovie].

    Python objects are one inductive type [value]; a dictionary is an
    association list in insertion order.  A call that can raise returns a
    [result]; the methods that reach the network run in the monad [M],
    which threads the list of URLs asked so far and keeps it when an
    exception passes through.

    Text is a [string] of characters: a character is a code point below
    256, so the model holds the text of ASCII and Latin-1 and no other;
    slicing and comparison go by character. *)

From Stdlib Require Import ZArith List String Ascii Bool Lia DecimalString.
Import ListNotations.
Local Open Scope list_scope.
Local Open Scope string_scope.

(** ** Values, truth and exceptions *)

#[warnings="-register-all"]
Inductive value : Type :=
| VNone
| VBool (b : bool)
| VInt (n : Z)
| VStr (s : string)
| VList (l : list value)
| VDict (d : list (string * value)).

Definition dict : Type := list (string * value).

Inductive exn : Type :=
| AttributeError
| KeyError
| IndexError
| TypeError
| SyntaxError
| IOError.

Inductive result (A : Type) : Type :=
| Ok (a : A)
| Raise (e : exn).

Arguments Ok {A} a.
Arguments Raise {A} e.

Definition rbind {A B : Type} (r : result A) (k : A -> result B) : result B :=
  match r with
  | Ok a => k a
  | Raise e => Raise e
  end.

Declare Scope result_scope.
Delimit Scope result_scope with result.
Notation "x <- r ; k" := (rbind r (fun x => k))
  (at level 61, r at next level, right associativity) : result_scope.

(** [try: ... except: ...] around a pure block. *)
Definition rcatch {A : Type} (r : result A) (handler : A) : A :=
  match r with
  | Ok a => a
  | Raise _ => handler
  end.

Fixpoint rmap {A B : Type} (f : A -> result B) (l : list A) : result (list B) :=
  match l with
  | [] => Ok []
  | a :: rest =>
      (b <- f a ; bs <- rmap f rest ; Ok (b :: bs))%result
  end.

(** Python's truth test: [None], [False], [0], [''], [[]] and [{}] are
    false, everything else is true. *)
Definition truthy (v : value) : bool :=
  match v with
  | VNone => false
  | VBool b => b
  | VInt n => negb (Z.eqb n 0)
  | VStr s => negb (String.eqb s "")
  | VList l => match l with [] => false | _ :: _ => true end
  | VDict d => match d with [] => false | _ :: _ => true end
  end.

(** [a or b] *)
Definition py_or (a b : value) : value := if truthy a then a else b.

(** ** Dictionaries *)

Fixpoint assoc (k : string) (d : dict) : option value :=
  match d with
  | [] => None
  | (k', v) :: rest => if String.eqb k k' then Some v else assoc k rest
  end.

(** [d[k] = v]: overwrite the entry of [k] or add one at the end. *)
Fixpoint dict_set (d : dict) (k : string) (v : value) : dict :=
  match d with
  | [] => [(k, v)]
  | (k', v') :: rest =>
      if String.eqb k k' then (k', v) :: rest else (k', v') :: dict_set rest k v
  end.

(** [dict((k, v) for k, v in d.items() if v)] *)
Definition keep_truthy (d : dict) : dict :=
  filter (fun kv => truthy (snd kv)) d.

(** [v.get(k, default)]: only a dictionary has [get]. *)
Definition py_get (v : value) (k : string) (default : value) : result value :=
  match v with
  | VDict d => Ok (match assoc k d with Some x => x | None => default end)
  | _ => Raise AttributeError
  end.

(** [v[k]] with a string [k]: [KeyError] on a dictionary without [k], and
    [TypeError] on a value that is not indexed by strings. *)
Definition py_getitem (v : value) (k : string) : result value :=
  match v with
  | VDict d => match assoc k d with Some x => Ok x | None => Raise KeyError end
  | _ => Raise TypeError
  end.

(** [v[0]] *)
Definition py_first (v : value) : result value :=
  match v with
  | VList (x :: _) => Ok x
  | VList [] => Raise IndexError
  | VStr (String c _) => Ok (VStr (String c ""))
  | VStr "" => Raise IndexError
  | VDict _ => Raise KeyError
  | _ => Raise TypeError
  end.

Definition chars (s : string) : list value :=
  map (fun c => VStr (String c "")) (list_ascii_of_string s).

(** [for x in v]: a list gives its items, a dictionary its keys, a string
    its characters; nothing else can be iterated. *)
Definition iterate (v : value) : result (list value) :=
  match v with
  | VList l => Ok l
  | VDict d => Ok (map (fun kv => VStr (fst kv)) d)
  | VStr s => Ok (chars s)
  | _ => Raise TypeError
  end.

Fixpoint contains (sub s : string) : bool :=
  prefix sub s ||
  match s with
  | EmptyString => false
  | String _ rest => contains sub rest
  end.

Definition is_str (k : string) (v : value) : bool :=
  match v with
  | VStr s => String.eqb k s
  | _ => false
  end.

(** [k in v] for a string [k]. *)
Definition py_in (k : string) (v : value) : result bool :=
  match v with
  | VDict d => Ok (existsb (fun kv => String.eqb k (fst kv)) d)
  | VList l => Ok (existsb (is_str k) l)
  | VStr s => Ok (contains k s)
  | _ => Raise TypeError
  end.

(** [getattr(v, 'name', default)]: no object that JSON decoding produces
    (None, bool, int, str, list, dict) has an attribute called [name]. *)
Definition getattr_name (v default : value) : value :=
  match v with
  | VNone | VBool _ | VInt _ | VStr _ | VList _ | VDict _ => default
  end.

(** ** Text *)

Definition lower_ascii (c : ascii) : ascii :=
  let n := nat_of_ascii c in
  if (65 <=? n)%nat && (n <=? 90)%nat then ascii_of_nat (n + 32) else c.

Fixpoint lower (s : string) : string :=
  match s with
  | EmptyString => EmptyString
  | String c rest => String (lower_ascii c) (lower rest)
  end.

(** [s[:4]]: the first four characters. *)
Definition first4 (s : string) : string := substring 0 4 s.

(** [l[1:5]] *)
Definition slice_1_5 {A : Type} (l : list A) : list A := firstn 4 (skipn 1 l).

Definition string_of_Z (n : Z) : string := NilZero.string_of_int (Z.to_int n).

(** Every character of [s] is an ASCII character. *)
Definition ascii_only (s : string) : bool :=
  forallb (fun c => (nat_of_ascii c <? 128)%nat) (list_ascii_of_string s).

(** *** [int(s)] on text

    White space around the literal, an optional sign, then decimal digits,
    where one underscore may stand between two digits, and nothing else.
    Below 256 the decimal digits are 0 to 9, and the white space that
    [int] strips is the space, the characters 9 to 13, and the characters
    133 and 160. *)

Definition is_space (c : ascii) : bool :=
  let n := nat_of_ascii c in
  (n =? 32)%nat || ((9 <=? n)%nat && (n <=? 13)%nat)
  || (n =? 133)%nat || (n =? 160)%nat.

Fixpoint lstrip (s : string) : string :=
  match s with
  | EmptyString => EmptyString
  | String c rest => if is_space c then lstrip rest else s
  end.

Fixpoint rstrip (s : string) : string :=
  match s with
  | EmptyString => EmptyString
  | String c rest =>
      match rstrip rest with
      | EmptyString => if is_space c then EmptyString else String c EmptyString
      | r => String c r
      end
  end.

Definition strip (s : string) : string := rstrip (lstrip s).

Definition digit_of (c : ascii) : option Z :=
  let n := nat_of_ascii c in
  if (48 <=? n)%nat && (n <=? 57)%nat then Some (Z.of_nat (n - 48)) else None.

(** What follows a digit: digits, each with at most one underscore before
    it. *)
Fixpoint digits (acc : Z) (s : string) : option Z :=
  match s with
  | EmptyString => Some acc
  | String c rest =>
      match digit_of c with
      | Some d => digits (10 * acc + d) rest
      | None =>
          if Ascii.eqb c "_" then
            match rest with
            | String c' rest' =>
                match digit_of c' with
                | Some d => digits (10 * acc + d) rest'
                | None => None
                end
            | EmptyString => None
            end
          else None
      end
  end.

(** A literal starts with a digit. *)
Definition number (s : string) : option Z :=
  match s with
  | String c rest =>
      match digit_of c with
      | Some d => digits d rest
      | None => None
      end
  | EmptyString => None
  end.

Definition py_int (s : string) : option Z :=
  match strip s with
  | String c rest =>
      if Ascii.eqb c "+" then number rest
      else if Ascii.eqb c "-" then option_map Z.opp (number rest)
      else number (String c rest)
  | EmptyString => None
  end.

(** Modelled from the spec: [tryInt] of [couchpotato.core.helpers.variable]
    is not in this file.  The year is the integer the first four characters
    spell and absent when they spell none: [int(s)], and [default] when
    [int] raises. *)
Definition tryInt (s default : value) : value :=
  match s with
  | VStr t => match py_int t with Some n => VInt n | None => default end
  | VInt n => VInt n
  | VBool b => VInt (if b then 1 else 0)
  | VNone | VList _ | VDict _ => default
  end.

(** ** The monad of the methods that fetch

    The state is the list of URLs asked so far, oldest first.  An exception
    leaves the list as it was when it was raised. *)

Definition trace : Type := list string.

Definition M (A : Type) : Type := trace -> result A * trace.

Definition ret {A : Type} (a : A) : M A := fun t => (Ok a, t).

Definition bind {A B : Type} (m : M A) (k : A -> M B) : M B :=
  fun t =>
    match m t with
    | (Ok a, t') => k a t'
    | (Raise e, t') => (Raise e, t')
    end.

Definition lift {A : Type} (r : result A) : M A := fun t => (r, t).

(** [try: m except: handler] *)
Definition try_except {A : Type} (m : M A) (handler : M A) : M A :=
  fun t =>
    match m t with
    | (Ok a, t') => (Ok a, t')
    | (Raise _, t') => handler t'
    end.

(** [try: m except SyntaxError: handler] *)
Definition try_except_SyntaxError {A : Type} (m : M A) (handler : M A) : M A :=
  fun t =>
    match m t with
    | (Raise SyntaxError, t') => handler t'
    | other => other
    end.

Declare Scope monad_scope.
Delimit Scope monad_scope with monad.
Notation "x <- m ;; k" := (bind m (fun x => k))
  (at level 61, m at next level, right associativity) : monad_scope.

(** ** What the provider reaches outside its file *)

Record Runtime : Type := {
  (** [self.conf('api_key')] and [self.conf('language')] *)
  conf_api_key : string;
  conf_language : string;
  (** [self.configuration] *)
  configuration : value;
  (** [self.getJsonData(url, ...)]: the decoded answer or an exception,
      which may depend on what was asked before. *)
  getJsonData : trace -> string -> result value;
  (** [fireEvent('scanner.name_year', q, single = True)] *)
  scanner_name_year : string -> result value;
  (** [tryUrlencode] of one parameter value *)
  quote : value -> string;
  (** the text Python prints for a list or a dictionary *)
  repr : value -> string
}.

(** The class attribute [configuration]. *)
Definition default_configuration : value :=
  VDict [("images", VDict [("secure_base_url", VStr "https://image.tmdb.org/t/p/")])].

Section Provider.

Variable E : Runtime.

(** [str(v)] and ['%s' % v] *)
Definition py_str (v : value) : string :=
  match v with
  | VNone => "None"
  | VBool true => "True"
  | VBool false => "False"
  | VInt n => string_of_Z n
  | VStr s => s
  | VList _ | VDict _ => repr E v
  end.

(** Modelled from the spec: [toUnicode] of
    [couchpotato.core.helpers.encoding] is not in this file; it is a
    string-normalization helper: text stays as it is and any other value
    becomes its text. *)
Definition toUnicode (v : value) : string := py_str v.

(** Modelled from the spec: [tryUrlencode] of
    [couchpotato.core.helpers.encoding] is not in this file; the wire
    contract has the parameters as [key=value] joined by [&]. *)
Definition tryUrlencode (params : dict) : string :=
  let new := concat "" (map (fun kv => "&" ++ fst kv ++ "=" ++ quote E (snd kv)) params) in
  substring 1 (String.length new - 1) new.

(** *** request *)

(** The URL of line 207. *)
Definition api_url (call encoded : string) : string :=
  "http://api.themoviedb.org/3/" ++ call ++ "?api_key=" ++ conf_api_key E
    ++ (if truthy (VStr encoded) then "&" ++ encoded else "")
    ++ "&language=" ++ conf_language E.

Definition fetch (url : string) : M value :=
  fun t => (getJsonData E t url, (t ++ [url])%list).

(** [return_key] is [None] or a text. *)
Definition request (call : string) (params : dict) (return_key : option string)
  : M value :=
  (let params := keep_truthy params in
   let params := tryUrlencode params in
   data <- try_except (fetch (api_url call params)) (ret VNone) ;;
   match return_key with
   | Some key =>
       if truthy data && truthy (VStr key) then
         found <- lift (py_in key data) ;;
         if found then lift (py_get data key VNone) else ret data
       else ret data
   | None => ret data
   end)%monad.

(** The URL of [call] with the parameters [kept] written out one by one. *)
Definition url_with (call : string) (kept : dict) : string :=
  "http://api.themoviedb.org/3/" ++ call ++ "?api_key=" ++ conf_api_key E
    ++ concat "" (map (fun kv => "&" ++ fst kv ++ "=" ++ quote E (snd kv)) kept)
    ++ "&language=" ++ conf_language E.

(** *** getImage, getMultImages *)

Definition getImage (movie : value) (type size : string) : string :=
  rcatch
    (path <- py_get movie (type ++ "_path") VNone ;
     images <- py_getitem (configuration E) "images" ;
     base <- py_getitem images "secure_base_url" ;
     Ok (py_str base ++ size ++ py_str path))%result
    "".

Definition getMultImages (movie : value) (type size : string) : list string :=
  rcatch
    (images <- py_get movie "images" (VDict []) ;
     gallery <- py_get images type (VList []) ;
     match gallery with
     | VList l => Ok (map (fun image => getImage image "file" size) (slice_1_5 l))
     | VStr s => Ok (map (fun image => getImage image "file" size) (slice_1_5 (chars s)))
     | _ => Raise TypeError
     end)%result
    [].

(** *** parseMovie *)

(** Lines 127-131: the text of the year, or [None]. *)
Definition derive_year (release_date : value) : value :=
  let year := first4 (py_str (py_or release_date (VStr ""))) in
  if negb (truthy release_date) || String.eqb year "1900" || String.eqb (lower year) "none"
  then VNone
  else VStr year.

(** Lines 139-144: one cast entry that fails is skipped.  Both assignments
    start with a [cast_item.get], so an entry fails before it changes
    either dictionary. *)
Fixpoint gather_cast (cast : list value) (actors images_actors : dict) : dict * dict :=
  match cast with
  | [] => (actors, images_actors)
  | cast_item :: rest =>
      match (character <- py_get cast_item "character" VNone ;
             name <- py_get cast_item "name" VNone ;
             Ok (toUnicode name, toUnicode character))%result with
      | Ok (name, character) =>
          gather_cast rest
            (dict_set actors name (VStr character))
            (dict_set images_actors name (VStr (getImage cast_item "profile" "original")))
      | Raise _ => gather_cast rest actors images_actors
      end
  end.

(** Lines 172-175.  [titles] holds text only and text equals no value of
    another kind, so a true [alt_name] that is not text passes the
    membership test and reaches [alt_name.lower()], which it lacks. *)
Fixpoint add_alternate_titles (alternate_titles : list value) (titles : list string)
  : result (list string) :=
  match alternate_titles with
  | [] => Ok titles
  | alt :: rest =>
      (alt_name <- py_get alt "title" VNone ;
       if truthy alt_name then
         match alt_name with
         | VStr s =>
             if negb (existsb (String.eqb s) titles) && negb (String.eqb (lower s) "none")
             then add_alternate_titles rest (titles ++ [s])%list
             else add_alternate_titles rest titles
         | _ => Raise AttributeError
         end
       else add_alternate_titles rest titles)%result
  end.

Definition image_list (url : string) : value :=
  VList (if truthy (VStr url) then [VStr url] else []).

(** Lines 106-177, on the payload that [request] returned. *)
Definition parseMovie_body (movie : value) (extended : bool) : result value :=
  (let poster := getImage movie "poster" "w154" in
   let poster_original := getImage movie "poster" "original" in
   let backdrop_original := getImage movie "backdrop" "original" in
   let extra_thumbs :=
     if extended then getMultImages movie "backdrops" "original" else [] in
   let genres :=
     rcatch (gs <- py_get movie "genres" (VList []) ;
             items <- iterate gs ;
             rmap (fun genre => py_get genre "name" VNone) items) [] in
   release_date <- py_get movie "release_date" VNone ;
   let year := derive_year release_date in
   gathered <-
     (if extended then
        casts <- py_get movie "casts" (VDict []) ;
        cast <- py_get casts "cast" (VList []) ;
        items <- iterate cast ;
        Ok (gather_cast items [] [])
      else Ok ([], [])) ;
   let actors := fst gathered in
   let images :=
     VDict [("poster", image_list poster);
            ("poster_original", image_list poster_original);
            ("backdrop_original", image_list backdrop_original);
            ("actors", VDict (snd gathered));
            ("extra_thumbs", VList (map VStr extra_thumbs))] in
   tmdb_id <- py_get movie "id" VNone ;
   title <- py_get movie "title" VNone ;
   imdb <- py_get movie "imdb_id" VNone ;
   runtime <- py_get movie "runtime" VNone ;
   plot <- py_get movie "overview" VNone ;
   collection <- py_get movie "belongs_to_collection" VNone ;
   let titles := [toUnicode title] in
   let movie_data :=
     keep_truthy
       [("type", VStr "movie");
        ("via_tmdb", VBool true);
        ("tmdb_id", tmdb_id);
        ("titles", VList (map VStr titles));
        ("original_title", VStr (toUnicode title));
        ("images", images);
        ("imdb", imdb);
        ("runtime", runtime);
        ("released", VStr (py_str release_date));
        ("year", tryInt year VNone);
        ("plot", plot);
        ("genres", VList genres);
        ("collection", getattr_name collection VNone);
        ("actor_roles", VDict actors)] in
   original_title <- py_getitem (VDict movie_data) "original_title" ;
   let titles :=
     if truthy original_title && negb (existsb (fun t => is_str t original_title) titles)
     then (titles ++ [py_str original_title])%list
     else titles in
   alternative <- py_get movie "alternative_titles" (VDict []) ;
   alternate_titles <- py_get alternative "titles" (VList []) ;
   items <- iterate alternate_titles ;
   titles <- add_alternate_titles items titles ;
   Ok (VDict (dict_set movie_data "titles" (VList (map VStr titles)))))%result.

Definition parseMovie (movie : value) (extended : bool) : M value :=
  (id <- lift (py_get movie "id" VNone) ;;
   movie <- request ("movie/" ++ py_str id)
              [("append_to_response",
                VStr ("alternative_titles" ++ (if extended then ",images,casts" else "")))]
              None ;;
   if negb (truthy movie) then ret VNone else lift (parseMovie_body movie extended))%monad.

(** The URL that [parseMovie] asks for [id]: line 100 through [request]. *)
Definition lookup_url (id : value) (extended : bool) : string :=
  api_url ("movie/" ++ py_str id)
    (tryUrlencode
       (keep_truthy
          [("append_to_response",
            VStr ("alternative_titles" ++ (if extended then ",images,casts" else "")))])).

(** *** search *)

Definition isDisabled : bool := String.eqb (conf_api_key E) "".

(** Lines 66-75: [nr] entries are done, [results] holds what they gave. *)
Fixpoint search_loop (limit nr : Z) (raw results : list value) : M (list value) :=
  match raw with
  | [] => ret results
  | movie :: rest =>
      (parsed_movie <- parseMovie movie false ;;
       let results :=
         if truthy parsed_movie then (results ++ [parsed_movie])%list else results in
       let nr := (nr + 1)%Z in
       if Z.eqb nr limit then ret results else search_loop limit nr rest results)%monad
  end.

(** Line 77: one element of the list that is logged. *)
Definition found_line (r : value) : result string :=
  (titles <- py_getitem r "titles" ;
   first <- py_first titles ;
   year <- py_get r "year" (VInt 0) ;
   match first with
   | VStr t => Ok (t ++ " (" ++ py_str year ++ ")")
   | _ => Raise TypeError
   end)%result.

Definition search (q : string) (limit : Z) : M value :=
  (if isDisabled then ret (VBool false) else
   raw <- try_except
            (name_year <- lift (scanner_name_year E q) ;;
             name <- lift (py_get name_year "name" (VStr q)) ;;
             year <- lift (py_get name_year "year" VNone) ;;
             request "search/movie"
               [("query", name);
                ("year", year);
                ("search_type", VStr (if Z.ltb 1 limit then "ngram" else "phrase"))]
               (Some "results"))
            (ret VNone) ;;
   if truthy raw then
     try_except_SyntaxError
       (entries <- lift (iterate raw) ;;
        results <- search_loop limit 0 entries [] ;;
        _ <- lift (rmap found_line results) ;;
        ret (VList results))
       (ret (VBool false))
   else ret (VList []))%monad.

(** *** getInfo, isMovie, config *)

Definition getInfo (identifier : value) (extended : bool) : M value :=
  (if negb (truthy identifier) then ret (VDict []) else
   result <- parseMovie (VDict [("id", identifier)]) extended ;;
   ret (py_or result (VDict [])))%monad.

(** Lines 223-224. *)
Definition is_movie_url (identifier : value) (adding : bool) : string :=
  let url := "https://api.couchpota.to/ismovie/" ++ py_str identifier ++ "/" in
  url ++ (if adding then "?adding=1" else "").

(** The request headers do not reach the model: the answer is a function
    of the URL and of what was asked before. *)
Definition isMovie (identifier : value) (adding : bool) : M value :=
  (if negb (truthy identifier) then ret VNone else
   let url := is_movie_url identifier adding in
   data <- fetch url ;;
   if truthy data then lift (py_get data "is_movie" (VBool true)) else ret (VBool true))%monad.

(** [config] returns the configuration that [self.configuration] holds
    after the call. *)
Definition config : M value :=
  (answer <- request "configuration" [] None ;;
   ret (if truthy answer then answer else configuration E))%monad.

End Provider.

(** ** A remote service with canned answers

    [mock] answers a URL from a table and has no body for any other URL;
    it quotes text as it is. *)

Definition mock_quote (v : value) : string :=
  match v with
  | VStr s => s
  | VInt n => string_of_Z n
  | _ => ""
  end.

Fixpoint answer_of (answers : list (string * result value)) (url : string) : result value :=
  match answers with
  | [] => Ok VNone
  | (u, r) :: rest => if String.eqb u url then r else answer_of rest url
  end.

Definition mock (scanner : string -> result value)
    (answers : list (string * result value)) : Runtime :=
  {| conf_api_key := "k";
     conf_language := "de";
     configuration := default_configuration;
     getJsonData := fun _ url => answer_of answers url;
     scanner_name_year := scanner;
     quote := mock_quote;
     repr := fun _ => "[]" |}.

Definition scan_plain (q : string) : result value :=
  Ok (VDict [("name", VStr q)]).

Definition search_url (q type : string) : string :=
  "http://api.themoviedb.org/3/search/movie?api_key=k&query=" ++ q
    ++ "&search_type=" ++ type ++ "&language=de".

Definition movie_url (id : string) : string :=
  "http://api.themoviedb.org/3/movie/" ++ id
    ++ "?api_key=k&append_to_response=alternative_titles&language=de".

Definition hits (ids : list Z) : result value :=
  Ok (VDict [("page", VInt 1);
             ("results", VList (map (fun i => VDict [("id", VInt i)]) ids))]).

(** The Matrix, as the catalog returns it for a non-extended lookup. *)
Definition matrix_payload : value :=
  VDict [("id", VInt 603);
         ("title", VStr "Matrix");
         ("release_date", VStr "1999-03-30");
         ("poster_path", VStr "/matrix.jpg");
         ("runtime", VInt 136);
         ("belongs_to_collection",
          VDict [("id", VInt 2344); ("name", VStr "The Matrix Collection")]);
         ("alternative_titles",
          VDict [("titles", VList [VDict [("title", VStr "Matrix")];
                                   VDict [("title", VStr "None")]])])].

Definition matrix_world : Runtime :=
  mock scan_plain
    [(search_url "Matrix" "ngram", hits [603; 604; 605]%Z);
     (search_url "Matrix" "phrase", hits [603; 604; 605]%Z);
     (movie_url "603", Ok matrix_payload);
     (movie_url "604", Ok (VDict [("id", VInt 604); ("title", VStr "Matrix Reloaded")]));
     (movie_url "605", Ok (VDict [("id", VInt 605); ("title", VStr "")]))].

(** The catalog answers the search with an error object, which has no
    [results]. *)
Definition error_world : Runtime :=
  mock scan_plain
    [(search_url "Matrix" "ngram",
      Ok (VDict [("status_code", VInt 34);
                 ("status_message", VStr "The resource could not be found.")]))].

(** The classification service says that tt0133093 is no movie. *)
Definition is_movie_world : Runtime :=
  mock scan_plain
    [("https://api.couchpota.to/ismovie/tt0133093/?adding=1",
      Ok (VDict [("is_movie", VBool false)]))].

(** The record of The Matrix. *)
Definition matrix_record : dict :=
  [("type", VStr "movie");
   ("via_tmdb", VBool true);
   ("tmdb_id", VInt 603);
   ("titles", VList [VStr "Matrix"]);
   ("original_title", VStr "Matrix");
   ("images",
    VDict [("poster", VList [VStr "https://image.tmdb.org/t/p/w154/matrix.jpg"]);
           ("poster_original", VList [VStr "https://image.tmdb.org/t/p/original/matrix.jpg"]);
           ("backdrop_original", VList [VStr "https://image.tmdb.org/t/p/originalNone"]);
           ("actors", VDict []);
           ("extra_thumbs", VList [])]);
   ("runtime", VInt 136);
   ("released", VStr "1999-03-30");
   ("year", VInt 1999)].

(** ** The rest of the provider *)

(** The provider after [config] has stored [c] in [self.configuration]
    (line 42). *)
Definition with_configuration (E : Runtime) (c : value) : Runtime :=
  {| conf_api_key := conf_api_key E;
     conf_language := conf_language E;
     configuration := c;
     getJsonData := getJsonData E;
     scanner_name_year := scanner_name_year E;
     quote := quote E;
     repr := repr E |}.

(** The value of the header [X-CP-Identifier] in [getRequestHeaders],
    line 237, for the setting [api_key] of the section [core]. *)
Definition request_identifier (core_api_key : string) : string :=
  "+" ++ substring 0 10 core_api_key.

(** A provider without API key. *)
Definition disabled_world : Runtime :=
  {| conf_api_key := "";
     conf_language := "de";
     configuration := default_configuration;
     getJsonData := fun _ _ => Ok VNone;
     scanner_name_year := scan_plain;
     quote := mock_quote;
     repr := fun _ => "[]" |}.

(** A remote service that is down. *)
Definition offline_world : Runtime :=
  {| conf_api_key := "k";
     conf_language := "de";
     configuration := default_configuration;
     getJsonData := fun _ _ => Raise IOError;
     scanner_name_year := scan_plain;
     quote := mock_quote;
     repr := fun _ => "[]" |}.

(** No handler answers the event [scanner.name_year]. *)
Definition scan_nothing (q : string) : result value := Ok VNone.

(** The scanner finds a year. *)
Definition scan_matrix (q : string) : result value :=
  Ok (VDict [("name", VStr "Matrix"); ("year", VInt 1999)]).

(** An extended payload with a gallery, a cast and genres. *)
Definition extended_fields : dict :=
        [("id", VInt 603);
         ("title", VStr "Matrix");
         ("imdb_id", VStr "tt0133093");
         ("overview", VStr "A hacker learns the truth.");
         ("genres", VList [VDict [("id", VInt 28); ("name", VStr "Action")];
                           VDict [("id", VInt 878); ("name", VStr "Science Fiction")]]);
         ("images",
          VDict [("backdrops",
                  VList [VDict [("file_path", VStr "/b0.jpg")];
                         VDict [("file_path", VStr "/b1.jpg")];
                         VDict [("file_path", VStr "/b2.jpg")];
                         VDict [("file_path", VStr "/b3.jpg")];
                         VDict [("file_path", VStr "/b4.jpg")];
                         VDict [("file_path", VStr "/b5.jpg")]])]);
         ("casts",
          VDict [("cast",
                  VList [VDict [("name", VStr "Keanu Reeves");
                                ("character", VStr "Neo");
                                ("profile_path", VStr "/keanu.jpg")];
                         VStr "broken";
                         VDict [("name", VStr "Carrie-Anne Moss");
                                ("character", VStr "Trinity")]])]);
         ("alternative_titles",
          VDict [("titles", VList [VDict [("title", VStr "The Matrix")];
                                   VDict [("title", VStr "")];
                                   VDict [("title", VStr "NONE")];
                                   VDict [("title", VStr "The Matrix")]])])].

Definition extended_payload : value := VDict extended_fields.

(** The record of the extended payload. *)
Definition extended_record : dict :=
  [("type", VStr "movie");
   ("via_tmdb", VBool true);
   ("tmdb_id", VInt 603);
   ("titles", VList [VStr "Matrix"; VStr "The Matrix"]);
   ("original_title", VStr "Matrix");
   ("images",
    VDict [("poster", VList [VStr "https://image.tmdb.org/t/p/w154None"]);
           ("poster_original", VList [VStr "https://image.tmdb.org/t/p/originalNone"]);
           ("backdrop_original", VList [VStr "https://image.tmdb.org/t/p/originalNone"]);
           ("actors",
            VDict [("Keanu Reeves", VStr "https://image.tmdb.org/t/p/original/keanu.jpg");
                   ("Carrie-Anne Moss", VStr "https://image.tmdb.org/t/p/originalNone")]);
           ("extra_thumbs",
            VList [VStr "https://image.tmdb.org/t/p/original/b1.jpg";
                   VStr "https://image.tmdb.org/t/p/original/b2.jpg";
                   VStr "https://image.tmdb.org/t/p/original/b3.jpg";
                   VStr "https://image.tmdb.org/t/p/original/b4.jpg"])]);
   ("imdb", VStr "tt0133093");
   ("released", VStr "None");
   ("plot", VStr "A hacker learns the truth.");
   ("genres", VList [VStr "Action"; VStr "Science Fiction"]);
   ("actor_roles",
    VDict [("Keanu Reeves", VStr "Neo"); ("Carrie-Anne Moss", VStr "Trinity")])].

(** The catalog answers the configuration request with an error object. *)
Definition error_answer : value :=
  VDict [("status_code", VInt 7); ("status_message", VStr "Invalid API key")].

Definition misconfigured_world : Runtime :=
  mock scan_plain
    [("http://api.themoviedb.org/3/configuration?api_key=k&language=de",
      Ok error_answer);
     (search_url "Matrix" "phrase", Ok (VDict [("results", VList [VInt 603])]));
     ("https://api.couchpota.to/ismovie/tt0133093/", Ok (VList [VInt 1]))].

(** * Properties *)

(** ** The result and fetch monads *)

Lemma rbind_ok {A B : Type} (r : result A) (k : A -> result B) (b : B) :
  rbind r k = Ok b -> exists a, r = Ok a /\ k a = Ok b.
Proof.
  destruct r as [a | e]; simpl; intros H; [eauto | discriminate].
Qed.

Lemma bind_ok {A B : Type} (m : M A) (k : A -> M B) (t t' : trace) (b : B) :
  bind m k t = (Ok b, t') ->
  exists a t1, m t = (Ok a, t1) /\ k a t1 = (Ok b, t').
Proof.
  unfold bind. destruct (m t) as [[a | e] t1]; intros H; [eauto | discriminate].
Qed.

Lemma Ok_inj {A : Type} (a b : A) : Ok a = Ok b -> a = b.
Proof. congruence. Qed.

Ltac rinv :=
  repeat match goal with
  | H : rbind _ _ = Ok _ |- _ =>
      let a := fresh "a" in
      let Ha := fresh "Ha" in
      apply rbind_ok in H; destruct H as (a & Ha & H)
  | H : Ok _ = Ok _ |- _ => apply Ok_inj in H
  | H : Raise _ = Ok _ |- _ => discriminate H
  end.

(** ** Text *)

Lemma substring_0_length (n : nat) (s : string) :
  String.length (substring 0 n s) <= n.
Proof.
  revert s. induction n as [| n IH]; intros [| c s]; simpl; try lia.
  specialize (IH s). lia.
Qed.

Lemma first4_length (s : string) : String.length (first4 s) <= 4.
Proof. apply substring_0_length. Qed.

Lemma lstrip_length (s : string) : String.length (lstrip s) <= String.length s.
Proof.
  induction s as [| c s IH]; simpl; [lia |].
  destruct (is_space c); simpl; lia.
Qed.

Lemma rstrip_length (s : string) : String.length (rstrip s) <= String.length s.
Proof.
  induction s as [| c s IH]; simpl; [lia |].
  destruct (rstrip s); [destruct (is_space c) |]; simpl in *; lia.
Qed.

Lemma lstrip_same (s : string) :
  String.length (lstrip s) = String.length s -> lstrip s = s.
Proof.
  destruct s as [| c s]; simpl; [reflexivity |].
  destruct (is_space c); [| reflexivity].
  pose proof (lstrip_length s). lia.
Qed.

Lemma rstrip_same (s : string) :
  String.length (rstrip s) = String.length s -> rstrip s = s.
Proof.
  induction s as [| c s IH]; simpl; [reflexivity |].
  pose proof (rstrip_length s) as Hlen.
  destruct (rstrip s) as [| c' r] eqn:Hr.
  - destruct (is_space c); simpl in *; intros H; try lia.
    destruct s; simpl in *; [reflexivity | lia].
  - simpl in *. intros H. f_equal. apply IH. lia.
Qed.

Lemma strip_same (s : string) :
  String.length s <= String.length (strip s) -> strip s = s.
Proof.
  unfold strip. intros H.
  pose proof (lstrip_length s). pose proof (rstrip_length (lstrip s)).
  assert (Hl : lstrip s = s) by (apply lstrip_same; lia).
  rewrite Hl in *. apply rstrip_same. lia.
Qed.

Lemma digit_of_some (c : ascii) (d : Z) :
  digit_of c = Some d ->
  (0 <= d <= 9)%Z /\ c = ascii_of_nat (48 + Z.to_nat d).
Proof.
  unfold digit_of.
  destruct ((48 <=? nat_of_ascii c)%nat && (nat_of_ascii c <=? 57)%nat) eqn:Hc;
    [| discriminate].
  apply andb_true_iff in Hc. destruct Hc as [H1 H2].
  apply Nat.leb_le in H1, H2. intros H. injection H as <-.
  split; [lia |].
  rewrite Nat2Z.id.
  replace (48 + (nat_of_ascii c - 48)) with (nat_of_ascii c) by lia.
  symmetry. apply ascii_nat_embedding.
Qed.

Lemma digits_String (acc : Z) (c : ascii) (s : string) :
  digits acc (String c s) =
  match digit_of c with
  | Some d => digits (10 * acc + d) s
  | None =>
      if Ascii.eqb c "_" then
        match s with
        | String c' rest' =>
            match digit_of c' with
            | Some d => digits (10 * acc + d) rest'
            | None => None
            end
        | EmptyString => None
        end
      else None
  end.
Proof. reflexivity. Qed.

Lemma digits_bound (k : nat) :
  forall (s : string) (acc n : Z),
    String.length s <= k ->
    (0 <= acc)%Z ->
    digits acc s = Some n ->
    (0 <= n < (acc + 1) * 10 ^ Z.of_nat (String.length s))%Z.
Proof.
  induction k as [| k IH]; intros s acc n Hlen Hacc H.
  - destruct s; [| simpl in Hlen; lia].
    change (Some acc = Some n) in H. apply (f_equal (fun o => match o with Some x => x | None => 0%Z end)) in H.
    cbv beta iota in H. subst n. simpl. lia.
  - destruct s as [| c rest].
    + change (Some acc = Some n) in H.
      apply (f_equal (fun o => match o with Some x => x | None => 0%Z end)) in H.
      cbv beta iota in H. subst n. simpl. lia.
    + rewrite digits_String in H. cbn [String.length] in Hlen |- *.
      rewrite Nat2Z.inj_succ, Z.pow_succ_r by lia.
      destruct (digit_of c) as [d |] eqn:Hd.
      * apply digit_of_some in Hd. destruct Hd as [Hd _].
        apply IH in H; [| lia | lia].
        set (P := (10 ^ Z.of_nat (String.length rest))%Z) in *.
        assert (0 < P)%Z by (apply Z.pow_pos_nonneg; lia).
        assert (0 <= (9 - d) * P)%Z by (apply Z.mul_nonneg_nonneg; lia).
        lia.
      * destruct (Ascii.eqb c "_"); [| discriminate].
        destruct rest as [| c' rest']; [discriminate |].
        destruct (digit_of c') as [d |] eqn:Hd'; [| discriminate].
        apply digit_of_some in Hd'. destruct Hd' as [Hd' _].
        cbn [String.length] in Hlen |- *.
        apply IH in H; [| lia | lia].
        rewrite Nat2Z.inj_succ, Z.pow_succ_r by lia.
        set (P := (10 ^ Z.of_nat (String.length rest'))%Z) in *.
        assert (0 < P)%Z by (apply Z.pow_pos_nonneg; lia).
        assert (0 <= (9 - d) * P)%Z by (apply Z.mul_nonneg_nonneg; lia).
        assert (0 <= acc * P)%Z by (apply Z.mul_nonneg_nonneg; lia).
        lia.
Qed.

Lemma number_bound (s : string) (n : Z) :
  number s = Some n -> (0 <= n < 10 ^ Z.of_nat (String.length s))%Z.
Proof.
  intros H. destruct s as [| c rest]; [discriminate |].
  unfold number in H. destruct (digit_of c) as [d |] eqn:Hd; [| discriminate].
  apply digit_of_some in Hd. destruct Hd as [Hd _].
  apply (digits_bound (String.length rest)) in H; [| lia | lia].
  cbn [String.length]. rewrite Nat2Z.inj_succ, Z.pow_succ_r by lia.
  set (P := (10 ^ Z.of_nat (String.length rest))%Z) in *.
  assert (0 < P)%Z by (apply Z.pow_pos_nonneg; lia).
  assert (0 <= (9 - d) * P)%Z by (apply Z.mul_nonneg_nonneg; lia).
  lia.
Qed.

Lemma Some_inj {A : Type} (a b : A) : Some a = Some b -> a = b.
Proof. congruence. Qed.

(** One step of [digits] on a text whose characters are known one by
    one. *)
Ltac digits_step H :=
  first
    [ discriminate H
    | rewrite digits_String in H
    | match type of H with
      | context [match digit_of ?c with Some _ => _ | None => _ end] =>
          let d := fresh "d" in
          let Hd := fresh "Hd" in
          destruct (digit_of c) as [d |] eqn:Hd;
          [apply digit_of_some in Hd; destruct Hd as [Hd ->] |]
      | context [if Ascii.eqb ?c "_" then _ else _] =>
          destruct (Ascii.eqb c "_")
      end ].

Lemma number_1900 (s : string) :
  String.length s <= 4 -> number s = Some 1900%Z -> s = "1900".
Proof.
  intros Hlen H.
  destruct s as [| c1 [| c2 [| c3 [| c4 [| c5 s]]]]]; simpl in Hlen; try lia;
    unfold number in H;
    repeat digits_step H;
    change (digits ?a "") with (Some a) in H;
    apply Some_inj in H;
    try lia.
  assert (d = 1 /\ d0 = 9 /\ d1 = 0 /\ d2 = 0)%Z as (-> & -> & -> & ->) by lia.
  reflexivity.
Qed.

Lemma py_int_examples :
  py_int " 12 " = Some 12%Z /\ py_int "-5" = Some (-5)%Z /\
  py_int "1_00" = Some 100%Z /\ py_int "1__0" = None /\ py_int "100_" = None /\
  py_int "+ 19" = None /\ py_int "abcd" = None /\ py_int "" = None.
Proof. repeat split. Qed.

(** Four characters that [int] reads as 1900 are the text "1900". *)
Lemma py_int_1900 (s : string) :
  String.length s <= 4 -> py_int s = Some 1900%Z -> s = "1900".
Proof.
  intros Hlen H. unfold py_int in H.
  pose proof (lstrip_length s) as Hl.
  pose proof (rstrip_length (lstrip s)) as Hr. fold (strip s) in Hr.
  destruct (strip s) as [| c rest] eqn:Hs; [discriminate |].
  simpl in Hr.
  destruct (Ascii.eqb c "+").
  - apply number_bound in H.
    assert (10 ^ Z.of_nat (String.length rest) <= 10 ^ 3)%Z
      by (apply Z.pow_le_mono_r; lia).
    lia.
  - destruct (Ascii.eqb c "-").
    + destruct (number rest) as [n |] eqn:Hn; [| discriminate].
      apply number_bound in Hn. simpl in H. injection H as H. lia.
    + assert (Hfour : String.length (String c rest) <= 4) by (simpl; lia).
      pose proof (number_1900 _ Hfour H) as Heq.
      rewrite Heq in Hs.
      assert (Hsame : strip s = s)
        by (apply strip_same; rewrite Hs; simpl; lia).
      congruence.
Qed.

(** ** Dictionaries *)

Lemma assoc_In (k : string) (d : dict) (v : value) :
  assoc k d = Some v -> In (k, v) d.
Proof.
  induction d as [| [k' v'] d IH]; simpl; [discriminate |].
  destruct (String.eqb k k') eqn:Hk.
  - apply String.eqb_eq in Hk. intros H. injection H as ->. subst. now left.
  - intros H. right. now apply IH.
Qed.

Lemma keep_truthy_In (kv : string * value) (d : dict) :
  In kv (keep_truthy d) <-> In kv d /\ truthy (snd kv) = true.
Proof. unfold keep_truthy. apply filter_In. Qed.

Lemma keep_truthy_Forall (d : dict) :
  Forall (fun kv => truthy (snd kv) = true) (keep_truthy d).
Proof.
  apply Forall_forall. intros kv H. now apply keep_truthy_In in H.
Qed.

Lemma assoc_dict_set_same (d : dict) (k : string) (v : value) :
  assoc k (dict_set d k v) = Some v.
Proof.
  induction d as [| [k' v'] d IH]; simpl.
  - now rewrite String.eqb_refl.
  - destruct (String.eqb k k') eqn:Hk; simpl; rewrite Hk; [reflexivity | exact IH].
Qed.

Lemma assoc_dict_set_other (d : dict) (k k' : string) (v : value) :
  k <> k' -> assoc k (dict_set d k' v) = assoc k d.
Proof.
  intros Hne. induction d as [| [k0 v0] d IH]; simpl.
  - apply String.eqb_neq in Hne. now rewrite Hne.
  - destruct (String.eqb k' k0) eqn:Hk; simpl.
    + apply String.eqb_eq in Hk. subst k0.
      apply String.eqb_neq in Hne. now rewrite Hne.
    + now rewrite IH.
Qed.

Lemma dict_set_Forall (d : dict) (k : string) (v : value) :
  Forall (fun kv => truthy (snd kv) = true) d ->
  truthy v = true ->
  Forall (fun kv => truthy (snd kv) = true) (dict_set d k v).
Proof.
  intros Hd Hv. induction Hd as [| [k' v'] d Hkv Hd IH]; simpl.
  - now constructor.
  - destruct (String.eqb k k'); constructor; auto.
Qed.

(** ** Titles *)

Lemma existsb_eqb_false (s : string) (l : list string) :
  existsb (String.eqb s) l = false -> ~ In s l.
Proof.
  intros H Hin.
  assert (existsb (String.eqb s) l = true)
    by (apply existsb_exists; exists s; split; [exact Hin | apply String.eqb_refl]).
  congruence.
Qed.

Lemma add_alternate_titles_spec (items : list value) (titles out : list string) :
  add_alternate_titles items titles = Ok out ->
  NoDup titles ->
  exists extra,
    out = (titles ++ extra)%list /\
    NoDup out /\
    Forall (fun s => lower s <> "none") extra.
Proof.
  revert titles. induction items as [| alt items IH]; intros titles H Hnd.
  - simpl in H. injection H as <-. exists []. rewrite app_nil_r. auto.
  - simpl in H. rinv.
    destruct (truthy a) eqn:Ht; [| now apply IH].
    destruct a as [| b | n | s | l | d]; try discriminate.
    destruct (existsb (String.eqb s) titles) eqn:Hin; simpl in H; [now apply IH |].
    destruct (String.eqb (lower s) "none") eqn:Hnone; simpl in H; [now apply IH |].
    apply IH in H.
    + destruct H as (extra & -> & Hout & Hextra).
      rewrite <- app_assoc in Hout |- *. simpl in Hout |- *.
      exists (s :: extra). split; [reflexivity |]. split; [exact Hout |].
      constructor; [now apply String.eqb_neq | exact Hextra].
    + apply NoDup_app_remove_l with (l := []). simpl.
      apply NoDup_app; simpl.
      * exact Hnd.
      * constructor; [intros [] | constructor].
      * intros x Hx [<- | []]. now apply existsb_eqb_false in Hin.
Qed.

(** ** The record that parseMovie builds *)

Ltac split_In H :=
  cbn [In] in H;
  repeat match type of H with
         | _ \/ _ => destruct H as [H | H]
         end;
  try contradiction; try discriminate H.

Lemma parseMovie_body_record (E : Runtime) (movie : value) (extended : bool) (v : value) :
  parseMovie_body E movie extended = Ok v ->
  exists movie_data title rest,
    v = VDict (dict_set movie_data "titles"
                 (VList (map VStr (toUnicode E title :: rest)))) /\
    py_get movie "title" VNone = Ok title /\
    Forall (fun kv => truthy (snd kv) = true) movie_data /\
    assoc "original_title" movie_data = Some (VStr (toUnicode E title)) /\
    assoc "collection" movie_data = None /\
    NoDup (toUnicode E title :: rest) /\
    Forall (fun s => lower s <> "none") rest.
Proof.
  unfold parseMovie_body. intros H. rinv.
  match type of Ha7 with
  | py_getitem (VDict ?md) _ = _ => remember md as movie_data eqn:Hmd
  end.
  assert (Horig : assoc "original_title" movie_data = Some (VStr (toUnicode E a2))).
  { simpl in Ha7.
    destruct (assoc "original_title" movie_data) as [x |] eqn:Hx; [| discriminate].
    apply assoc_In in Hx. rewrite Hmd in Hx.
    apply keep_truthy_In in Hx. destruct Hx as [Hx _].
    split_In Hx. injection Hx as <-. reflexivity. }
  assert (Hcoll : assoc "collection" movie_data = None).
  { destruct (assoc "collection" movie_data) as [x |] eqn:Hx; [| reflexivity].
    apply assoc_In in Hx. rewrite Hmd in Hx.
    apply keep_truthy_In in Hx. destruct Hx as [Hx Ht].
    split_In Hx. injection Hx as <-. destruct a6; discriminate Ht. }
  simpl in Ha7. rewrite Horig in Ha7. apply Ok_inj in Ha7. subst a7.
  cbn [truthy existsb is_str] in Ha11.
  rewrite String.eqb_refl in Ha11. cbn [orb negb] in Ha11.
  rewrite andb_false_r in Ha11.
  apply add_alternate_titles_spec in Ha11; [| repeat constructor; intros []].
  destruct Ha11 as (extra & -> & Hnd & Hextra).
  exists movie_data, a2, extra. subst v.
  repeat split; auto.
  rewrite Hmd. apply keep_truthy_Forall.
Qed.

(** ** What request asks and returns *)

Lemma request_trace (E : Runtime) (call : string) (params : dict)
    (return_key : option string) (st : trace) :
  snd (request E call params return_key st) =
  (st ++ [api_url E call (tryUrlencode E (keep_truthy params))])%list.
Proof.
  unfold request, bind, try_except, fetch, ret, lift.
  destruct (getJsonData E st _) as [data | e];
    destruct return_key as [key |]; try reflexivity;
    destruct (truthy _ && truthy (VStr key)); try reflexivity;
    destruct (py_in _ _) as [[|] | e']; reflexivity.
Qed.

Lemma request_no_key (E : Runtime) (call : string) (params : dict) (st : trace) :
  request E call params None st =
  (Ok (rcatch (getJsonData E st (api_url E call (tryUrlencode E (keep_truthy params)))) VNone),
   (st ++ [api_url E call (tryUrlencode E (keep_truthy params))])%list).
Proof.
  unfold request, bind, try_except, fetch, ret, lift.
  destruct (getJsonData E st _) as [data | e]; reflexivity.
Qed.

Lemma parseMovie_unfold (E : Runtime) (movie : value) (extended : bool) (st : trace) :
  parseMovie E movie extended st =
  match py_get movie "id" VNone with
  | Raise e => (Raise e, st)
  | Ok id =>
      let url := lookup_url E id extended in
      let payload := rcatch (getJsonData E st url) VNone in
      (if negb (truthy payload) then Ok VNone else parseMovie_body E payload extended,
       (st ++ [url])%list)
  end.
Proof.
  unfold parseMovie, bind, lift.
  destruct (py_get movie "id" VNone) as [id | e]; [| reflexivity].
  rewrite request_no_key. cbv zeta.
  destruct (negb (truthy _)); reflexivity.
Qed.

Lemma parseMovie_ok (E : Runtime) (movie : value) (extended : bool) (st : trace)
    (v : value) :
  fst (parseMovie E movie extended st) = Ok v ->
  v = VNone \/
  exists payload, truthy payload = true /\ parseMovie_body E payload extended = Ok v.
Proof.
  rewrite parseMovie_unfold.
  destruct (py_get movie "id" VNone) as [id | e]; [| discriminate].
  cbv zeta. cbn [fst].
  destruct (truthy (rcatch _ VNone)) eqn:Ht; cbn [negb].
  - intros H. right. eauto.
  - intros H. left. congruence.
Qed.

(** ** Images *)

(** A payload without the path gets the base URL and size followed by the
    text of [None]. *)
Lemma getImage_missing_path (E : Runtime) (d : dict) (type size : string) :
  configuration E = default_configuration ->
  assoc (type ++ "_path") d = None ->
  getImage E (VDict d) type size = "https://image.tmdb.org/t/p/" ++ size ++ "None".
Proof.
  intros Hconf Hpath. unfold getImage. cbn [py_get rbind].
  rewrite Hpath, Hconf. reflexivity.
Qed.

(** [getImage] is empty only when the payload is no dictionary or the
    configuration lacks the base URL. *)
Lemma getImage_of_dict (E : Runtime) (d : dict) (type size : string) :
  configuration E = default_configuration ->
  truthy (VStr (getImage E (VDict d) type size)) = true.
Proof.
  intros Hconf. unfold getImage. cbn [py_get rbind]. rewrite Hconf. reflexivity.
Qed.

(** ** Failures of the fetch stay inside search *)

Lemma search_scanner_failure (E : Runtime) (q : string) (limit : Z) (st : trace)
    (e : exn) :
  isDisabled E = false ->
  scanner_name_year E q = Raise e ->
  search E q limit st = (Ok (VList []), st).
Proof.
  intros Hdis Hscan. unfold search. rewrite Hdis.
  unfold bind at 1. unfold try_except at 1. unfold bind at 1. unfold lift at 1.
  rewrite Hscan. reflexivity.
Qed.

Lemma search_fetch_failure (E : Runtime) (q : string) (limit : Z) (st : trace)
    (d : dict) :
  isDisabled E = false ->
  scanner_name_year E q = Ok (VDict d) ->
  (forall url, exists e, getJsonData E st url = Raise e) ->
  fst (search E q limit st) = Ok (VList []).
Proof.
  intros Hdis Hscan Hfetch. unfold search. rewrite Hdis.
  unfold bind at 1. unfold try_except at 1. unfold bind at 1. unfold lift at 1.
  rewrite Hscan. unfold bind, lift. cbn [py_get].
  unfold request, bind, try_except, fetch.
  match goal with
  | |- context [getJsonData E st ?u] => destruct (Hfetch u) as [e He]; rewrite He
  end.
  reflexivity.
Qed.

(** ** What search asks *)

Lemma parseMovie_trace (E : Runtime) (movie : value) (extended : bool) (st : trace) :
  snd (parseMovie E movie extended st) =
  (st ++ match py_get movie "id" VNone with
         | Ok id => [lookup_url E id extended]
         | Raise _ => []
         end)%list.
Proof.
  rewrite parseMovie_unfold.
  destruct (py_get movie "id" VNone) as [id | e]; cbn [snd].
  - reflexivity.
  - now rewrite app_nil_r.
Qed.

(** The loop asks one non-extended lookup for each entry it reaches, and
    while the counter is below a positive limit it reaches no more entries
    than the limit leaves. *)
Lemma search_loop_trace (E : Runtime) (limit : Z) (raw : list value) :
  forall (nr : Z) (results : list value) (st : trace),
  exists urls,
    snd (search_loop E limit nr raw results st) = (st ++ urls)%list /\
    Forall (fun url => exists id, url = lookup_url E id false) urls /\
    ((0 <= nr < limit)%Z -> (Z.of_nat (List.length urls) <= limit - nr)%Z).
Proof.
  induction raw as [| movie rest IH]; intros nr results st.
  - exists []. cbn. rewrite app_nil_r. repeat split; [constructor | lia].
  - cbn [search_loop]. unfold bind at 1.
    pose proof (parseMovie_trace E movie false st) as Htr.
    destruct (parseMovie E movie false st) as [[parsed | e] t1] eqn:Hp;
      cbn [snd] in Htr; subst t1.
    + assert (Hurls : Forall (fun url => exists id, url = lookup_url E id false)
                        (match py_get movie "id" VNone with
                         | Ok id => [lookup_url E id false]
                         | Raise _ => []
                         end)).
      { destruct (py_get movie "id" VNone); repeat constructor. eauto. }
      assert (Hlen : List.length
                       (match py_get movie "id" VNone with
                        | Ok id => [lookup_url E id false]
                        | Raise _ => []
                        end) <= 1).
      { destruct (py_get movie "id" VNone); simpl; lia. }
      destruct (Z.eqb (nr + 1) limit) eqn:Hlim.
      * eexists. cbn [ret snd]. split; [reflexivity |]. split; [exact Hurls |]. lia.
      * set (results' := if truthy parsed then _ else _).
        destruct (IH (nr + 1)%Z results'
                    (st ++ match py_get movie "id" VNone with
                           | Ok id => [lookup_url E id false]
                           | Raise _ => []
                           end)%list) as (urls & Hsnd & Hall & Hbound).
        eexists. rewrite Hsnd, <- app_assoc. split; [reflexivity |].
        split; [apply Forall_app; split; assumption |].
        intros Hnr. apply Z.eqb_neq in Hlim.
        rewrite length_app. specialize (Hbound ltac:(lia)). lia.
    + eexists. cbn [snd]. split; [reflexivity |]. split.
      * destruct (py_get movie "id" VNone); repeat constructor. eauto.
      * intros Hnr. destruct (py_get movie "id" VNone); simpl; lia.
Qed.

(** With a positive limit the loop never looks at an entry beyond it. *)
Lemma search_loop_firstn (E : Runtime) (limit : Z) (raw : list value) :
  forall (nr : Z) (results : list value) (st : trace),
  (0 <= nr < limit)%Z ->
  search_loop E limit nr raw results st =
  search_loop E limit nr (firstn (Z.to_nat (limit - nr)) raw) results st.
Proof.
  induction raw as [| movie rest IH]; intros nr results st Hnr.
  - now rewrite firstn_nil.
  - replace (Z.to_nat (limit - nr)) with (S (Z.to_nat (limit - (nr + 1)))) by lia.
    cbn [firstn search_loop]. unfold bind.
    destruct (parseMovie E movie false st) as [[parsed | e] t1]; [| reflexivity].
    destruct (Z.eqb (nr + 1) limit) eqn:Hlim; [reflexivity |].
    apply Z.eqb_neq in Hlim. apply IH. lia.
Qed.

Lemma search_trace (E : Runtime) (q : string) (limit : Z) (st : trace) :
  isDisabled E = false ->
  exists urls,
    snd (search E q limit st) =
    (st ++ match scanner_name_year E q with
           | Ok (VDict d) =>
               [api_url E "search/movie"
                  (tryUrlencode E
                     (keep_truthy
                        [("query", match assoc "name" d with Some x => x | None => VStr q end);
                         ("year", match assoc "year" d with Some x => x | None => VNone end);
                         ("search_type",
                          VStr (if Z.ltb 1 limit then "ngram" else "phrase"))]))]
           | _ => []
           end ++ urls)%list /\
    Forall (fun url => exists id, url = lookup_url E id false) urls /\
    ((1 <= limit)%Z -> (Z.of_nat (List.length urls) <= limit)%Z).
Proof.
  intros Hdis. unfold search. rewrite Hdis.
  unfold bind at 1. unfold try_except at 1.
  set (first := bind (lift (scanner_name_year E q)) _).
  set (fp := match scanner_name_year E q with Ok (VDict d) => _ | _ => [] end).
  assert (Hfirst : snd (first st) = (st ++ fp)%list).
  { subst first fp. unfold bind at 1. unfold lift at 1.
    destruct (scanner_name_year E q) as [nm | e]; [| cbn; now rewrite app_nil_r].
    destruct nm; try (cbn; now rewrite app_nil_r).
    unfold bind, lift. cbn [py_get]. apply request_trace. }
  destruct (first st) as [r t1]. cbn [snd] in Hfirst. subst t1.
  assert (Hnone : exists urls : list string,
             (st ++ fp)%list = (st ++ fp ++ urls)%list /\
             Forall (fun url => exists id, url = lookup_url E id false) urls /\
             ((1 <= limit)%Z -> (Z.of_nat (List.length urls) <= limit)%Z)).
  { exists []. rewrite app_nil_r. repeat split; [constructor | simpl; lia]. }
  assert (Hraw : forall raw,
             exists urls, 
               snd ((if truthy raw
                     then
                       try_except_SyntaxError
                         (entries <- lift (iterate raw) ;;
                          results <- search_loop E limit 0 entries [] ;;
                          _ <- lift (rmap (found_line E) results) ;;
                          ret (VList results))
                         (ret (VBool false))
                     else ret (VList []))%monad (st ++ fp)%list)
               = (st ++ fp ++ urls)%list /\
               Forall (fun url => exists id, url = lookup_url E id false) urls /\
               ((1 <= limit)%Z -> (Z.of_nat (List.length urls) <= limit)%Z)).
  { intros raw. destruct (truthy raw); [| exact Hnone].
    unfold try_except_SyntaxError. unfold bind at 1. unfold lift at 1.
    destruct (iterate raw) as [entries | e];
      [| destruct e; exact Hnone].
    unfold bind at 1.
    destruct (search_loop_trace E limit entries 0 [] (st ++ fp)%list)
      as (urls & Hsnd & Hall & Hbound).
    exists urls. rewrite app_assoc. split; [| split; [exact Hall |]].
    - destruct (search_loop E limit 0 entries [] (st ++ fp)%list)
        as [[results | e] t2]; cbn [snd] in Hsnd; subst t2.
      + unfold bind, lift, ret.
        destruct (rmap (found_line E) results) as [lines | e];
          [reflexivity | destruct e; reflexivity].
      + destruct e; reflexivity.
    - intros Hlim. specialize (Hbound ltac:(lia)). lia. }
  destruct r as [raw | e].
  - apply Hraw.
  - unfold ret. apply (Hraw VNone).
Qed.

(** ** The URL of a request *)

Lemma substring_all (s : string) : substring 0 (String.length s) s = s.
Proof. induction s as [| c s IH]; simpl; [reflexivity | now rewrite IH]. Qed.

Lemma api_url_with (E : Runtime) (call : string) (kept : dict) :
  api_url E call (tryUrlencode E kept) = url_with E call kept.
Proof.
  unfold api_url, url_with, tryUrlencode.
  set (l := map (fun kv => "&" ++ fst kv ++ "=" ++ quote E (snd kv)) kept).
  destruct kept as [| kv kept]; [reflexivity |].
  assert (Hnew : exists c body, concat "" l = String "&" (String c body)).
  { subst l. cbn [map].
    set (x := "&" ++ fst kv ++ "=" ++ quote E (snd kv)) in *.
    assert (Hx : exists c body, x = String "&" (String c body)).
    { subst x. simpl. destruct (fst kv); simpl; eauto. }
    destruct Hx as (c & body & Hx). rewrite Hx.
    destruct (map _ kept); simpl; eauto. }
  destruct Hnew as (c & body & ->).
  cbn [String.length]. rewrite Nat.sub_succ, Nat.sub_0_r.
  change (substring 1 (S (String.length body)) (String "&" (String c body)))
    with (substring 0 (String.length (String c body)) (String c body)).
  rewrite substring_all. reflexivity.
Qed.

(** * The contract of the operations *)

(** C1.  [search] lets an exception of the per-entry normalization reach
    its caller: when the third hit has an empty title, [parseMovie] raises
    KeyError at [movie_data['original_title']], and [search] catches
    SyntaxError only. *)
Theorem search_raises_on_empty_title :
  fst (search matrix_world "Matrix" 3 []) = Raise KeyError.
Proof. vm_compute. reflexivity. Qed.

(** An answer without [results] is returned whole by [request]; the loop
    then walks over its keys, and a key has no [get]. *)
Lemma search_raises_on_error_answer :
  search error_world "Matrix" 3 [] =
  (Raise AttributeError, [search_url "Matrix" "ngram"]).
Proof. vm_compute. reflexivity. Qed.

(** C2.  A payload without [poster_path] gets a poster URL that ends in
    the text of [None]: [images.poster] is not empty. *)
Theorem poster_of_missing_path :
  exists record images,
    fst (parseMovie matrix_world (VDict [("id", VInt 604)]) false []) = Ok (VDict record) /\
    assoc "images" record = Some (VDict images) /\
    assoc "poster" images = Some (VList [VStr "https://image.tmdb.org/t/p/w154None"]).
Proof. eexists. eexists. vm_compute. repeat split. Qed.

(** C3.  The payload of The Matrix names its collection, and the record
    has no [collection]: [getattr] finds no attribute [name] on a
    dictionary. *)
Theorem collection_of_matrix_dropped :
  exists belongs record,
    py_get matrix_payload "belongs_to_collection" VNone = Ok belongs /\
    py_get belongs "name" VNone = Ok (VStr "The Matrix Collection") /\
    parseMovie_body matrix_world matrix_payload false = Ok (VDict record) /\
    assoc "collection" record = None.
Proof. eexists. eexists. vm_compute. repeat split. Qed.

(** No payload gets a [collection] in its record. *)
Lemma collection_never_emitted (E : Runtime) (movie : value) (extended : bool)
    (record : dict) :
  parseMovie_body E movie extended = Ok (VDict record) ->
  assoc "collection" record = None.
Proof.
  intros H. apply parseMovie_body_record in H.
  destruct H as (md & title & rest & Hv & _ & _ & _ & Hc & _).
  injection Hv as ->. rewrite assoc_dict_set_other; [exact Hc | discriminate].
Qed.

(** C4, as the code has it.  The year derived at line 156 is absent when
    the release date is missing or empty, when its first four characters
    are "1900" or the text "none" in any case, and when [int] does not
    read them; otherwise it is the integer that the first four characters
    spell.  When these characters are ASCII it is never the number
    1900. *)
Theorem year_derivation (E : Runtime) (d : option string) :
  let year :=
    tryInt (derive_year E (match d with Some s => VStr s | None => VNone end)) VNone in
  match d with
  | None => year = VNone
  | Some s =>
      if String.eqb s "" || String.eqb (first4 s) "1900"
         || String.eqb (lower (first4 s)) "none"
      then year = VNone
      else match py_int (first4 s) with
           | Some n =>
               year = VInt n /\ (ascii_only (first4 s) = true -> n <> 1900%Z)
           | None => year = VNone
           end
  end.
Proof.
  destruct d as [s |]; cbv zeta; [| reflexivity].
  unfold derive_year, py_or. cbn [truthy].
  destruct (String.eqb s "") eqn:Hs; cbn [negb orb py_str]; [reflexivity |].
  destruct (String.eqb (first4 s) "1900") eqn:H1900; cbn [orb]; [reflexivity |].
  destruct (String.eqb (lower (first4 s)) "none"); cbn [tryInt]; [reflexivity |].
  destruct (py_int (first4 s)) as [n |] eqn:Hn; [| reflexivity].
  split; [reflexivity |].
  intros _ ->.
  apply py_int_1900 in Hn; [| apply first4_length].
  apply String.eqb_neq in H1900. contradiction.
Qed.

Lemma year_derivation_witness :
  tryInt (derive_year matrix_world (VStr "1999-03-30")) VNone = VInt 1999 /\
  1999%Z <> 1900%Z.
Proof.
  pose proof (year_derivation matrix_world (Some "1999-03-30")) as H.
  hnf in H. destruct H as [Hyear Hnot].
  split; [exact Hyear | apply Hnot; reflexivity].
Defined.

(** C4 as stated fails: the date "abcd-01-01" is present and not empty,
    its first four characters are neither "1900" nor "none", and the year
    is absent, not an integer. *)
Lemma year_of_unparseable_date :
  "abcd-01-01" <> "" /\
  first4 "abcd-01-01" <> "1900" /\
  lower (first4 "abcd-01-01") <> "none" /\
  tryInt (derive_year matrix_world (VStr "abcd-01-01")) VNone = VNone.
Proof. repeat split; discriminate. Qed.

(** C5, as the code has it.  With a limit of at least 1, [search] asks at
    most one search request and then one non-extended lookup for each
    entry it normalizes, at most [limit] of them; its loop stops at the
    limit and never reaches an entry beyond it. *)
Theorem search_within_limit (E : Runtime) (q : string) (limit : Z) (st : trace) :
  (1 <= limit)%Z ->
  (exists first urls,
     snd (search E q limit st) = (st ++ first ++ urls)%list /\
     List.length first <= 1 /\
     Forall (fun url => exists params, url = api_url E "search/movie" params) first /\
     Forall (fun url => exists id, url = lookup_url E id false) urls /\
     (Z.of_nat (List.length urls) <= limit)%Z) /\
  (forall raw results st',
     search_loop E limit 0 raw results st' =
     search_loop E limit 0 (firstn (Z.to_nat limit) raw) results st').
Proof.
  intros Hlimit. split.
  - destruct (isDisabled E) eqn:Hdis.
    + exists [], []. unfold search. rewrite Hdis. cbn. rewrite app_nil_r.
      repeat split; try constructor; lia.
    + destruct (search_trace E q limit st Hdis) as (urls & Hsnd & Hall & Hbound).
      eexists. exists urls. split; [exact Hsnd |].
      split; [| split; [| split; [exact Hall | auto]]].
      * destruct (scanner_name_year E q) as [[| | | | |] |]; simpl; lia.
      * destruct (scanner_name_year E q) as [[| | | | |] |]; repeat constructor.
        eauto.
  - intros raw results st'.
    rewrite (search_loop_firstn E limit raw 0 results st') by lia.
    now rewrite Z.sub_0_r.
Qed.

Lemma search_within_limit_witness :
  exists first urls,
    snd (search matrix_world "Matrix" 1 []) = ([] ++ first ++ urls)%list /\
    List.length first <= 1 /\
    Forall (fun url => exists params, url = api_url matrix_world "search/movie" params)
      first /\
    Forall (fun url => exists id, url = lookup_url matrix_world id false) urls /\
    (Z.of_nat (List.length urls) <= 1)%Z.
Proof.
  apply (search_within_limit matrix_world "Matrix" 1 []). lia.
Defined.

(** C5 as stated fails: with the limit 0 the counter never equals the
    limit, and [search] normalizes all three hits. *)
Lemma search_limit_zero_unbounded :
  snd (search matrix_world "Matrix" 0 []) =
  [search_url "Matrix" "phrase"; movie_url "603"; movie_url "604"; movie_url "605"].
Proof. vm_compute. reflexivity. Qed.

(** C6.  Every attribute of a record that [parseMovie] returns has a true
    value. *)
Theorem emitted_record_truthy (E : Runtime) (movie : value) (extended : bool)
    (st : trace) (record : dict) :
  fst (parseMovie E movie extended st) = Ok (VDict record) ->
  Forall (fun kv => truthy (snd kv) = true) record.
Proof.
  intros H. apply parseMovie_ok in H.
  destruct H as [H | (payload & _ & H)]; [discriminate |].
  apply parseMovie_body_record in H.
  destruct H as (md & title & rest & Hv & _ & Hmd & _).
  injection Hv as ->. apply dict_set_Forall; [exact Hmd | reflexivity].
Qed.

Lemma emitted_record_truthy_witness :
  Forall (fun kv => truthy (snd kv) = true) matrix_record.
Proof.
  apply (emitted_record_truthy matrix_world (VDict [("id", VInt 603)]) false []).
  vm_compute. reflexivity.
Defined.

(** C7.  A payload without title gets the titles ["None"], an entry that
    is "none" but for its case: line 150 puts the text of the missing
    title first, and only the alternative titles are tested against
    "none" (line 174), as the one of this payload is. *)
Theorem titles_none_of_missing_title :
  exists record,
    parseMovie_body matrix_world
      (VDict [("id", VInt 1);
              ("alternative_titles",
               VDict [("titles", VList [VDict [("title", VStr "None")]])])])
      false = Ok (VDict record) /\
    assoc "titles" record = Some (VList [VStr "None"]) /\
    lower "None" = "none".
Proof. eexists. vm_compute. repeat split. Qed.

(** What does hold of the titles of every record: they start with the
    original title of the record, hold no title twice, and no title after
    the first is "none" in any case.  With the original title "Matrix"
    the titles hold "Matrix" once and never "None". *)
Theorem titles_of_record (E : Runtime) (movie : value) (extended : bool)
    (st : trace) (record : dict) :
  fst (parseMovie E movie extended st) = Ok (VDict record) ->
  exists first rest,
    assoc "titles" record = Some (VList (map VStr (first :: rest))) /\
    assoc "original_title" record = Some (VStr first) /\
    NoDup (first :: rest) /\
    Forall (fun s => lower s <> "none") rest /\
    (first = "Matrix" ->
     count_occ string_dec (first :: rest) "Matrix" = 1 /\ ~ In "None" (first :: rest)).
Proof.
  intros H. apply parseMovie_ok in H.
  destruct H as [H | (payload & _ & H)]; [discriminate |].
  apply parseMovie_body_record in H.
  destruct H as (md & title & rest & Hv & _ & _ & Horig & _ & Hnd & Hrest).
  injection Hv as ->.
  exists (toUnicode E title), rest.
  split; [apply assoc_dict_set_same |].
  split; [rewrite assoc_dict_set_other; [exact Horig | discriminate] |].
  split; [exact Hnd |]. split; [exact Hrest |].
  intros Hfirst. split.
  - apply NoDup_count_occ'; [exact Hnd | left; exact Hfirst].
  - rewrite Hfirst. intros [Hin | Hin]; [discriminate |].
    rewrite Forall_forall in Hrest. apply (Hrest _ Hin). reflexivity.
Qed.

Lemma titles_of_record_witness :
  exists first rest,
    assoc "titles" matrix_record = Some (VList (map VStr (first :: rest))) /\
    assoc "original_title" matrix_record = Some (VStr first) /\
    NoDup (first :: rest) /\
    Forall (fun s => lower s <> "none") rest /\
    (first = "Matrix" ->
     count_occ string_dec (first :: rest) "Matrix" = 1 /\ ~ In "None" (first :: rest)).
Proof.
  apply (titles_of_record matrix_world (VDict [("id", VInt 603)]) false []).
  vm_compute. reflexivity.
Defined.

(** A payload whose title is the text "None" gets the titles ["None"]
    as well. *)
Lemma titles_keep_a_none_title :
  parseMovie_body matrix_world (VDict [("id", VInt 1); ("title", VStr "None")]) false =
  Ok (VDict [("type", VStr "movie"); ("via_tmdb", VBool true); ("tmdb_id", VInt 1);
             ("titles", VList [VStr "None"]);
             ("original_title", VStr "None");
             ("images",
              VDict [("poster", VList [VStr "https://image.tmdb.org/t/p/w154None"]);
                     ("poster_original",
                      VList [VStr "https://image.tmdb.org/t/p/originalNone"]);
                     ("backdrop_original",
                      VList [VStr "https://image.tmdb.org/t/p/originalNone"]);
                     ("actors", VDict []); ("extra_thumbs", VList [])]);
             ("released", VStr "None")]) /\
  lower "None" = "none".
Proof. split; vm_compute; reflexivity. Qed.



(** C9, as the code has it.  Without an identifier [isMovie] returns
    [None] and asks nothing.  With one, and an answer [data] of the
    service, it returns [False] exactly when [data] is a dictionary whose
    [is_movie] is [False], and [True] when [data] is missing or empty or
    is a dictionary without [is_movie]; a dictionary with [is_movie] gives
    the value of that field. *)
Theorem isMovie_fail_open (E : Runtime) (identifier : value) (adding : bool)
    (st : trace) :
  (truthy identifier = false -> isMovie E identifier adding st = (Ok VNone, st)) /\
  (truthy identifier = true ->
   forall data,
     getJsonData E st (is_movie_url E identifier adding) = Ok data ->
     (fst (isMovie E identifier adding st) = Ok (VBool false) <->
      exists d, data = VDict d /\ assoc "is_movie" d = Some (VBool false)) /\
     (truthy data = false -> fst (isMovie E identifier adding st) = Ok (VBool true)) /\
     (forall d, data = VDict d -> assoc "is_movie" d = None ->
                fst (isMovie E identifier adding st) = Ok (VBool true)) /\
     (forall d x, data = VDict d -> assoc "is_movie" d = Some x ->
                  fst (isMovie E identifier adding st) = Ok x)).
Proof.
  split.
  - intros Hid. unfold isMovie. rewrite Hid. reflexivity.
  - intros Hid data Hdata.
    unfold isMovie. rewrite Hid. cbn [negb]. cbv zeta.
    unfold bind, fetch, ret, lift. rewrite Hdata.
    destruct (truthy data) eqn:Ht; cbn [fst].
    + split; [split |]; [| | split; [| split]].
      * destruct data as [| b | n | s | l | d]; try discriminate.
        cbn [py_get]. intros H. apply Ok_inj in H.
        exists d. split; [reflexivity |].
        destruct (assoc "is_movie" d); [congruence | discriminate].
      * intros (d & -> & Hd). cbn [py_get]. now rewrite Hd.
      * discriminate.
      * intros d -> Hd. cbn [py_get]. now rewrite Hd.
      * intros d x -> Hd. cbn [py_get]. now rewrite Hd.
    + split; [split |]; [| | split; [| split]].
      * discriminate.
      * intros (d & -> & Hd). destruct d; discriminate.
      * reflexivity.
      * reflexivity.
      * intros d x -> Hd. destruct d; discriminate.
Qed.

(** C9 as stated fails: the answer [[1]] is true and has no [is_movie],
    and [isMovie] raises AttributeError where the statement has it return
    [True]. *)
Lemma isMovie_of_list_answer :
  getJsonData misconfigured_world []
    (is_movie_url misconfigured_world (VStr "tt0133093") false) = Ok (VList [VInt 1]) /\
  truthy (VList [VInt 1]) = true /\
  py_in "is_movie" (VList [VInt 1]) = Ok false /\
  fst (isMovie misconfigured_world (VStr "tt0133093") false []) = Raise AttributeError.
Proof. repeat split. Qed.

Lemma isMovie_fail_open_witness :
  fst (isMovie is_movie_world (VStr "tt0133093") true []) = Ok (VBool false).
Proof.
  destruct (isMovie_fail_open is_movie_world (VStr "tt0133093") true []) as [_ H].
  destruct (H eq_refl (VDict [("is_movie", VBool false)]) eq_refl) as [[_ Hfalse] _].
  apply Hfalse. exists [("is_movie", VBool false)]. split; reflexivity.
Defined.

(** C10.  [request] asks one URL, which carries exactly the parameters
    with a true value; and when the scanner finds no year, the URL that
    [search] asks first has no [year] parameter. *)
Theorem request_drops_falsy_params (E : Runtime) (call : string) (params : dict)
    (return_key : option string) (st : trace) :
  (exists kept,
     snd (request E call params return_key st) = (st ++ [url_with E call kept])%list /\
     (forall kv, In kv kept <-> In kv params /\ truthy (snd kv) = true)) /\
  (forall q limit d,
     isDisabled E = false ->
     scanner_name_year E q = Ok (VDict d) ->
     truthy (match assoc "year" d with Some y => y | None => VNone end) = false ->
     exists kept rest,
       snd (search E q limit st) = (st ++ url_with E "search/movie" kept :: rest)%list /\
       ~ In "year" (map fst kept) /\
       Forall (fun kv => truthy (snd kv) = true) kept).
Proof.
  split.
  - exists (keep_truthy params). rewrite request_trace, api_url_with.
    split; [reflexivity |]. intros kv. apply keep_truthy_In.
  - intros q limit d Hdis Hscan Hyear.
    destruct (search_trace E q limit st Hdis) as (urls & Hsnd & _).
    rewrite Hscan, api_url_with in Hsnd.
    eexists. exists urls. split; [exact Hsnd |]. split.
    + intros Hin. apply in_map_iff in Hin. destruct Hin as ([k v] & Hk & Hin).
      simpl in Hk. subst k. apply keep_truthy_In in Hin. destruct Hin as [Hin Ht].
      split_In Hin. injection Hin as <-. simpl in Ht. congruence.
    + apply keep_truthy_Forall.
Qed.

Lemma request_drops_falsy_params_witness :
  exists kept rest,
    snd (search matrix_world "Matrix" 3 []) =
      ([] ++ url_with matrix_world "search/movie" kept :: rest)%list /\
    ~ In "year" (map fst kept) /\
    Forall (fun kv => truthy (snd kv) = true) kept.
Proof.
  apply (proj2 (request_drops_falsy_params matrix_world "" [] None [])
           "Matrix" 3%Z [("name", VStr "Matrix")]); reflexivity.
Defined.

(** * Further properties *)

(** ** Which exceptions the operations raise *)

Lemma rbind_no_syntax {A B : Type} (r : result A) (k : A -> result B) :
  r <> Raise SyntaxError ->
  (forall a, k a <> Raise SyntaxError) ->
  rbind r k <> Raise SyntaxError.
Proof.
  intros Hr Hk. destruct r as [a | e]; simpl; [apply Hk |].
  intros H. apply Hr. congruence.
Qed.

Lemma py_get_no_syntax (v : value) (k : string) (default : value) :
  py_get v k default <> Raise SyntaxError.
Proof. destruct v; discriminate. Qed.

Lemma py_getitem_no_syntax (v : value) (k : string) :
  py_getitem v k <> Raise SyntaxError.
Proof. destruct v; try discriminate. simpl. destruct (assoc k d); discriminate. Qed.

Lemma py_first_no_syntax (v : value) : py_first v <> Raise SyntaxError.
Proof. destruct v as [| | | [| c s] | [| x l] |]; discriminate. Qed.

Lemma iterate_no_syntax (v : value) : iterate v <> Raise SyntaxError.
Proof. destruct v; discriminate. Qed.

Lemma add_alternate_titles_no_syntax (items : list value) (titles : list string) :
  add_alternate_titles items titles <> Raise SyntaxError.
Proof.
  revert titles. induction items as [| alt items IH]; intros titles; [discriminate |].
  cbn [add_alternate_titles]. apply rbind_no_syntax; [apply py_get_no_syntax |].
  intros alt_name. destruct (truthy alt_name); [| apply IH].
  destruct alt_name; try discriminate.
  destruct (_ && _); apply IH.
Qed.

Ltac no_syntax :=
  repeat first
    [ apply py_get_no_syntax
    | apply py_getitem_no_syntax
    | apply py_first_no_syntax
    | apply iterate_no_syntax
    | apply add_alternate_titles_no_syntax
    | discriminate
    | apply rbind_no_syntax; [| intros ?] ].

Lemma parseMovie_body_no_syntax (E : Runtime) (movie : value) (extended : bool) :
  parseMovie_body E movie extended <> Raise SyntaxError.
Proof.
  unfold parseMovie_body. cbv zeta.
  apply rbind_no_syntax; [no_syntax | intros release_date].
  apply rbind_no_syntax; [destruct extended; no_syntax | intros gathered].
  no_syntax.
Qed.

Lemma parseMovie_no_syntax (E : Runtime) (movie : value) (extended : bool) (st : trace) :
  fst (parseMovie E movie extended st) <> Raise SyntaxError.
Proof.
  rewrite parseMovie_unfold.
  pose proof (py_get_no_syntax movie "id" VNone) as Hid.
  destruct (py_get movie "id" VNone) as [id | e]; cbn [fst]; [| exact Hid].
  cbv zeta. destruct (negb _); [discriminate | apply parseMovie_body_no_syntax].
Qed.

Lemma search_loop_no_syntax (E : Runtime) (limit : Z) (raw : list value) :
  forall (nr : Z) (results : list value) (st : trace),
    fst (search_loop E limit nr raw results st) <> Raise SyntaxError.
Proof.
  induction raw as [| movie rest IH]; intros nr results st; [discriminate |].
  cbn [search_loop]. unfold bind at 1.
  pose proof (parseMovie_no_syntax E movie false st) as Hp.
  destruct (parseMovie E movie false st) as [[parsed | e] t1]; cbn [fst] in *.
  - destruct (Z.eqb (nr + 1) limit); [discriminate | apply IH].
  - intros H. apply Hp. congruence.
Qed.

Lemma found_lines_no_syntax (E : Runtime) (results : list value) :
  rmap (found_line E) results <> Raise SyntaxError.
Proof.
  induction results as [| r results IH]; [discriminate |].
  cbn [rmap]. apply rbind_no_syntax.
  - unfold found_line. no_syntax. destruct a0; discriminate.
  - intros line. apply rbind_no_syntax; [exact IH | discriminate].
Qed.

Lemma try_except_SyntaxError_same {A : Type} (m handler : M A) (t : trace) :
  fst (m t) <> Raise SyntaxError ->
  try_except_SyntaxError m handler t = m t.
Proof.
  unfold try_except_SyntaxError. destruct (m t) as [[a | e] t']; cbn [fst];
    [reflexivity |].
  destruct e; try reflexivity. intros H. now contradiction H.
Qed.

(** The part of [search] after the fetch (lines 63-84): the handler of
    SyntaxError is never entered. *)
Lemma search_tail_same (E : Runtime) (limit : Z) (raw : value) (t : trace) :
  (if truthy raw
   then
     try_except_SyntaxError
       (entries <- lift (iterate raw) ;;
        results <- search_loop E limit 0 entries [] ;;
        _ <- lift (rmap (found_line E) results) ;;
        ret (VList results))
       (ret (VBool false))
   else ret (VList []))%monad t =
  (if truthy raw
   then
     (entries <- lift (iterate raw) ;;
      results <- search_loop E limit 0 entries [] ;;
      _ <- lift (rmap (found_line E) results) ;;
      ret (VList results))
   else ret (VList []))%monad t.
Proof.
  destruct (truthy raw); [| reflexivity].
  apply try_except_SyntaxError_same.
  unfold bind at 1. unfold lift at 1.
  pose proof (iterate_no_syntax raw) as Hit.
  destruct (iterate raw) as [entries | e]; cbn [fst];
    [| intros H; apply Hit; congruence].
  unfold bind at 1.
  pose proof (search_loop_no_syntax E limit entries 0 [] t) as Hloop.
  destruct (search_loop E limit 0 entries [] t) as [[results | e] t1]; cbn [fst] in *;
    [| intros H; apply Hloop; congruence].
  unfold bind, lift, ret.
  pose proof (found_lines_no_syntax E results) as Hlines.
  destruct (rmap (found_line E) results) as [lines | e]; cbn [fst];
    [discriminate | intros H; apply Hlines; congruence].
Qed.

(** What [search] returns is a list unless the provider is disabled. *)
Lemma search_returns_list (E : Runtime) (q : string) (limit : Z) (st : trace)
    (v : value) :
  isDisabled E = false ->
  fst (search E q limit st) = Ok v ->
  exists results, v = VList results.
Proof.
  intros Hdis. unfold search. rewrite Hdis.
  unfold bind at 1. unfold try_except at 1.
  match goal with
  | |- context [let (r, t') := ?first st in _] => destruct (first st) as [r t1]
  end.
  assert (Htail : forall raw,
             fst ((if truthy raw
                   then
                     try_except_SyntaxError
                       (entries <- lift (iterate raw) ;;
                        results <- search_loop E limit 0 entries [] ;;
                        _ <- lift (rmap (found_line E) results) ;;
                        ret (VList results))
                       (ret (VBool false))
                   else ret (VList []))%monad t1) = Ok v ->
             exists results, v = VList results).
  { intros raw. rewrite search_tail_same.
    destruct (truthy raw); [| intros H; apply Ok_inj in H; eauto].
    unfold bind at 1. unfold lift at 1.
    destruct (iterate raw) as [entries | e]; [| discriminate].
    unfold bind at 1.
    destruct (search_loop E limit 0 entries [] t1) as [[results | e] t2];
      [| discriminate].
    unfold bind, lift, ret.
    destruct (rmap (found_line E) results) as [lines | e]; [| discriminate].
    cbn [fst]. intros H. apply Ok_inj in H. eauto. }
  destruct r as [raw | e]; [apply Htail | apply (Htail VNone)].
Qed.

(** X1.  [search] returns [False] exactly when no API key is configured,
    and then it asks nothing. *)
Theorem search_false_iff_disabled (E : Runtime) (q : string) (limit : Z) (st : trace) :
  (conf_api_key E = "" -> search E q limit st = (Ok (VBool false), st)) /\
  (fst (search E q limit st) = Ok (VBool false) -> conf_api_key E = "").
Proof.
  split.
  - intros Hkey. unfold search, isDisabled. rewrite Hkey. reflexivity.
  - intros H. destruct (isDisabled E) eqn:Hdis.
    + unfold isDisabled in Hdis. now apply String.eqb_eq in Hdis.
    + apply (search_returns_list E q limit st _ Hdis) in H.
      destruct H as [results H]. discriminate.
Qed.

Lemma search_false_iff_disabled_witness :
  search disabled_world "Matrix" 3 [] = (Ok (VBool false), []).
Proof.
  apply (proj1 (search_false_iff_disabled disabled_world "Matrix" 3 [])).
  reflexivity.
Defined.

(** X2.  When the title scanner raises, or returns something that is no
    dictionary, [search] asks nothing and returns the empty list. *)
Theorem search_without_name_year (E : Runtime) (q : string) (limit : Z) (st : trace) :
  conf_api_key E <> "" ->
  (forall d, scanner_name_year E q <> Ok (VDict d)) ->
  search E q limit st = (Ok (VList []), st).
Proof.
  intros Hkey Hscan.
  assert (Hdis : isDisabled E = false) by (now apply String.eqb_neq).
  unfold search. rewrite Hdis.
  unfold bind at 1. unfold try_except at 1. unfold bind at 1. unfold lift at 1.
  destruct (scanner_name_year E q) as [name_year | e]; [| reflexivity].
  destruct name_year; try reflexivity.
  now contradiction (Hscan d).
Qed.

Lemma search_without_name_year_witness :
  search (mock scan_nothing []) "Matrix" 3 [] = (Ok (VList []), []).
Proof.
  apply (search_without_name_year (mock scan_nothing []) "Matrix" 3 []);
    [discriminate | intros d; discriminate].
Defined.

(** X3.  When the scanner gave a dictionary and the search request raises
    or has no true answer, [search] returns the empty list after that one
    request. *)
Theorem search_without_answer (E : Runtime) (q : string) (limit : Z) (st : trace)
    (d : dict) :
  let url :=
    api_url E "search/movie"
      (tryUrlencode E
         (keep_truthy
            [("query", match assoc "name" d with Some x => x | None => VStr q end);
             ("year", match assoc "year" d with Some x => x | None => VNone end);
             ("search_type", VStr (if Z.ltb 1 limit then "ngram" else "phrase"))])) in
  conf_api_key E <> "" ->
  scanner_name_year E q = Ok (VDict d) ->
  truthy (rcatch (getJsonData E st url) VNone) = false ->
  search E q limit st = (Ok (VList []), (st ++ [url])%list).
Proof.
  intros url Hkey Hscan Hfetch.
  assert (Hdis : isDisabled E = false) by (now apply String.eqb_neq).
  unfold search. rewrite Hdis.
  unfold bind at 1. unfold try_except at 1. unfold bind at 1. unfold lift at 1.
  rewrite Hscan. unfold bind at 1. unfold lift at 1. cbn [py_get].
  unfold bind at 1. unfold lift at 1.
  unfold request. unfold bind at 1. unfold try_except, fetch.
  fold url. destruct (getJsonData E st url) as [data | e]; cbn [rcatch] in Hfetch.
  - rewrite Hfetch. cbn. rewrite Hfetch. reflexivity.
  - reflexivity.
Qed.

Lemma search_without_answer_witness :
  search offline_world "Matrix" 3 [] =
  (Ok (VList []), [search_url "Matrix" "ngram"]).
Proof.
  apply (search_without_answer offline_world "Matrix" 3 [] [("name", VStr "Matrix")]);
    [discriminate | reflexivity | reflexivity].
Defined.

(** ** What search returns *)

Lemma found_line_of_record (E : Runtime) (movie : value) (extended : bool) (v : value) :
  parseMovie_body E movie extended = Ok v ->
  exists line, found_line E v = Ok line.
Proof.
  intros H. apply parseMovie_body_record in H.
  destruct H as (md & title & rest & -> & _).
  unfold found_line. cbn [py_getitem py_get]. rewrite assoc_dict_set_same.
  cbn. eauto.
Qed.

Lemma found_lines_of_records (E : Runtime) (parsed : list value) :
  Forall (fun v => v = VNone \/
                   exists movie extended, parseMovie_body E movie extended = Ok v) parsed ->
  exists lines, rmap (found_line E) (filter truthy parsed) = Ok lines.
Proof.
  induction 1 as [| v parsed Hv _ IH]; [cbn; eauto |].
  cbn [filter]. destruct IH as (lines & IH).
  destruct Hv as [-> | (movie & extended & Hv)]; [cbn; eauto |].
  destruct (truthy v); [| eauto].
  apply found_line_of_record in Hv. destruct Hv as (line & Hline).
  cbn [rmap]. rewrite Hline, IH. cbn. eauto.
Qed.

Lemma parseMovie_stateless (E : Runtime) (movie : value) (extended : bool) (st : trace) :
  (forall t t' url, getJsonData E t url = getJsonData E t' url) ->
  fst (parseMovie E movie extended st) = fst (parseMovie E movie extended []).
Proof.
  intros Hstateless. rewrite !parseMovie_unfold.
  destruct (py_get movie "id" VNone) as [id | e]; [| reflexivity].
  cbv zeta. cbn [fst]. now rewrite (Hstateless st []).
Qed.

Lemma rmap_parsed (E : Runtime) (entries parsed : list value) :
  rmap (fun movie => fst (parseMovie E movie false [])) entries = Ok parsed ->
  Forall (fun v => v = VNone \/
                   exists movie extended, parseMovie_body E movie extended = Ok v) parsed.
Proof.
  revert parsed. induction entries as [| movie entries IH]; intros parsed H.
  - apply Ok_inj in H. subst. constructor.
  - cbn [rmap] in H. rinv. subst parsed. constructor; [| now apply IH].
    apply parseMovie_ok in Ha. destruct Ha as [-> | (payload & _ & Hb)]; eauto.
Qed.

Lemma search_loop_stateless (E : Runtime) (limit : Z) (raw : list value) :
  (forall t t' url, getJsonData E t url = getJsonData E t' url) ->
  forall (nr : Z) (results : list value) (st : trace),
    (0 <= nr < limit)%Z ->
    fst (search_loop E limit nr raw results st) =
    (parsed <- rmap (fun movie => fst (parseMovie E movie false []))
                 (firstn (Z.to_nat (limit - nr)) raw) ;
     Ok (results ++ filter truthy parsed)%list)%result.
Proof.
  intros Hstateless.
  induction raw as [| movie rest IH]; intros nr results st Hnr.
  - rewrite firstn_nil. cbn. now rewrite app_nil_r.
  - replace (Z.to_nat (limit - nr)) with (S (Z.to_nat (limit - (nr + 1)))) by lia.
    cbn [firstn rmap search_loop]. unfold bind at 1.
    rewrite <- (parseMovie_stateless E movie false st Hstateless).
    destruct (parseMovie E movie false st) as [[parsed | e] t1]; cbn [fst rbind];
      [| reflexivity].
    destruct (Z.eqb (nr + 1) limit) eqn:Hlim.
    + apply Z.eqb_eq in Hlim.
      replace (Z.to_nat (limit - (nr + 1))) with 0 by lia.
      cbn. destruct (truthy parsed); [reflexivity | now rewrite app_nil_r].
    + apply Z.eqb_neq in Hlim. rewrite IH by lia.
      destruct (rmap _ _) as [more | e]; cbn [rbind filter]; [| reflexivity].
      destruct (truthy parsed); [now rewrite <- app_assoc | reflexivity].
Qed.

Lemma assoc_existsb (k : string) (d : dict) (v : value) :
  assoc k d = Some v -> existsb (fun kv => String.eqb k (fst kv)) d = true.
Proof.
  induction d as [| [k' v'] d IH]; simpl; [discriminate |].
  destruct (String.eqb k k'); [reflexivity | exact IH].
Qed.

(** X4.  When the remote answers the same URL the same way each time and
    the limit is at least 1, [search] returns the records of the first
    [limit] hits in the order of the answer, without the hits whose lookup
    gave nothing; a hit that gave nothing still counts for the limit, and
    an exception of one of these lookups is the outcome of [search]. *)
Theorem search_results_in_rank_order (E : Runtime) (q : string) (limit : Z)
    (st : trace) (d answer : dict) (entries : list value) :
  let url :=
    api_url E "search/movie"
      (tryUrlencode E
         (keep_truthy
            [("query", match assoc "name" d with Some x => x | None => VStr q end);
             ("year", match assoc "year" d with Some x => x | None => VNone end);
             ("search_type", VStr (if Z.ltb 1 limit then "ngram" else "phrase"))])) in
  conf_api_key E <> "" ->
  (1 <= limit)%Z ->
  (forall t t' url, getJsonData E t url = getJsonData E t' url) ->
  scanner_name_year E q = Ok (VDict d) ->
  getJsonData E st url = Ok (VDict answer) ->
  assoc "results" answer = Some (VList entries) ->
  fst (search E q limit st) =
  (parsed <- rmap (fun movie => fst (parseMovie E movie false []))
               (firstn (Z.to_nat limit) entries) ;
   Ok (VList (filter truthy parsed)))%result.
Proof.
  intros url Hkey Hlimit Hstateless Hscan Hanswer Hresults.
  assert (Hdis : isDisabled E = false) by (now apply String.eqb_neq).
  unfold search. rewrite Hdis.
  unfold bind at 1. unfold try_except at 1. unfold bind at 1. unfold lift at 1.
  rewrite Hscan. unfold bind at 1. unfold lift at 1. cbn [py_get].
  unfold bind at 1. unfold lift at 1.
  unfold request. unfold bind at 1. unfold try_except at 1. unfold fetch at 1.
  fold url. rewrite Hanswer.
  assert (Ht : truthy (VDict answer) = true) by (destruct answer; [discriminate | reflexivity]).
  rewrite Ht. cbn [andb truthy String.eqb Ascii.eqb Bool.eqb negb].
  unfold bind at 1. unfold lift at 1. cbn [py_in].
  rewrite (assoc_existsb _ _ _ Hresults). unfold lift at 1. cbn [py_get].
  rewrite Hresults.
  rewrite search_tail_same.
  destruct entries as [| movie entries].
  - cbn. rewrite firstn_nil. reflexivity.
  - cbn [truthy]. unfold bind at 1. unfold lift at 1. cbn [iterate].
    unfold bind at 1.
    pose proof (search_loop_stateless E limit (movie :: entries) Hstateless 0 []
                  (st ++ [url])%list ltac:(lia)) as Hloop.
    rewrite Z.sub_0_r in Hloop.
    destruct (search_loop E limit 0 (movie :: entries) [] (st ++ [url])%list)
      as [[results | e] t1]; cbn [fst] in Hloop.
    + destruct (rmap _ (firstn (Z.to_nat limit) (movie :: entries)))
        as [parsed | e] eqn:Hparsed; cbn [rbind] in Hloop |- *; [| discriminate].
      apply Ok_inj in Hloop. cbn [app] in Hloop. subst results.
      apply rmap_parsed in Hparsed. apply found_lines_of_records in Hparsed.
      destruct Hparsed as (lines & Hlines).
      unfold bind, lift, ret. rewrite Hlines. reflexivity.
    + destruct (rmap _ (firstn (Z.to_nat limit) (movie :: entries)))
        as [parsed | e']; cbn [rbind] in Hloop |- *; [discriminate |].
      cbn [fst]. congruence.
Qed.

Lemma search_results_in_rank_order_witness :
  fst (search matrix_world "Matrix" 2 []) =
  (parsed <- rmap (fun movie => fst (parseMovie matrix_world movie false []))
               (firstn (Z.to_nat 2)
                  (map (fun i => VDict [("id", VInt i)]) [603; 604; 605]%Z)) ;
   Ok (VList (filter truthy parsed)))%result.
Proof.
  apply (search_results_in_rank_order matrix_world "Matrix" 2 []
           [("name", VStr "Matrix")]
           [("page", VInt 1);
            ("results", VList (map (fun i => VDict [("id", VInt i)]) [603; 604; 605]%Z))]).
  - discriminate.
  - lia.
  - intros t t' url. reflexivity.
  - reflexivity.
  - reflexivity.
  - reflexivity.
Defined.

(** X5.  With a name and a year from the scanner, the first URL that
    [search] asks carries the parameters query, year and search_type, the
    query being the raw text when the scanner gave no name, and the type
    "ngram" for a limit above 1 and "phrase" otherwise. *)
Theorem search_asks_query_year_type (E : Runtime) (q : string) (limit : Z)
    (st : trace) (d : dict) (year : value) :
  let name := match assoc "name" d with Some x => x | None => VStr q end in
  conf_api_key E <> "" ->
  scanner_name_year E q = Ok (VDict d) ->
  assoc "year" d = Some year ->
  truthy year = true ->
  truthy name = true ->
  exists rest,
    snd (search E q limit st) =
    (st ++ url_with E "search/movie"
             [("query", name);
              ("year", year);
              ("search_type", VStr (if Z.ltb 1 limit then "ngram" else "phrase"))]
        :: rest)%list.
Proof.
  intros name Hkey Hscan Hyear Hty Htn.
  assert (Hdis : isDisabled E = false) by (now apply String.eqb_neq).
  destruct (search_trace E q limit st Hdis) as (urls & Hsnd & _).
  rewrite Hscan, Hyear, api_url_with in Hsnd. fold name in Hsnd.
  exists urls. rewrite Hsnd. unfold keep_truthy. cbn [filter snd].
  rewrite Htn, Hty. destruct (Z.ltb 1 limit); reflexivity.
Qed.

Lemma search_asks_query_year_type_witness :
  exists rest,
    snd (search (mock scan_matrix []) "Matrix 1999" 1 []) =
    ([] ++ url_with (mock scan_matrix []) "search/movie"
             [("query", VStr "Matrix"); ("year", VInt 1999);
              ("search_type", VStr "phrase")]
        :: rest)%list.
Proof.
  apply (search_asks_query_year_type (mock scan_matrix []) "Matrix 1999" 1 []
           [("name", VStr "Matrix"); ("year", VInt 1999)] (VInt 1999));
    try reflexivity; discriminate.
Defined.

(** ** getInfo *)

Lemma lookup_url_with (E : Runtime) (id : value) (extended : bool) :
  lookup_url E id extended =
  url_with E ("movie/" ++ py_str E id)
    [("append_to_response",
      VStr (if extended then "alternative_titles,images,casts" else "alternative_titles"))].
Proof.
  unfold lookup_url. rewrite api_url_with. destruct extended; reflexivity.
Qed.

(** X6.  With an identifier [getInfo] asks exactly one URL: the movie of
    that identifier, with the alternative titles and, when extended, the
    images and the cast appended. *)
Theorem getInfo_asks_once (E : Runtime) (identifier : value) (extended : bool)
    (st : trace) :
  truthy identifier = true ->
  snd (getInfo E identifier extended st) =
  (st ++ [url_with E ("movie/" ++ py_str E identifier)
            [("append_to_response",
              VStr (if extended then "alternative_titles,images,casts"
                    else "alternative_titles"))]])%list.
Proof.
  intros Hid. unfold getInfo. rewrite Hid. cbn [negb]. unfold bind.
  pose proof (parseMovie_trace E (VDict [("id", identifier)]) extended st) as Htr.
  cbn [py_get assoc String.eqb Ascii.eqb Bool.eqb] in Htr.
  rewrite lookup_url_with in Htr.
  destruct (parseMovie E (VDict [("id", identifier)]) extended st) as [[v | e] t1];
    exact Htr.
Qed.

Lemma getInfo_asks_once_witness :
  snd (getInfo matrix_world (VInt 603) true []) =
  ([] ++ [url_with matrix_world ("movie/" ++ py_str matrix_world (VInt 603))
            [("append_to_response", VStr "alternative_titles,images,casts")]])%list.
Proof.
  apply (getInfo_asks_once matrix_world (VInt 603) true []). reflexivity.
Defined.

Lemma dict_set_truthy (d : dict) (k : string) (v : value) :
  truthy (VDict (dict_set d k v)) = true.
Proof.
  destruct d as [| [k' v'] d]; simpl; [reflexivity |].
  destruct (String.eqb k k'); reflexivity.
Qed.

(** X7.  With an identifier, [getInfo] gives the empty dictionary when the
    lookup raises or has no true answer, and otherwise exactly what the
    normalization of the answer gives, its exception included. *)
Theorem getInfo_of_answer (E : Runtime) (identifier : value) (extended : bool)
    (st : trace) :
  truthy identifier = true ->
  fst (getInfo E identifier extended st) =
  let payload := rcatch (getJsonData E st (lookup_url E identifier extended)) VNone in
  if truthy payload then parseMovie_body E payload extended else Ok (VDict []).
Proof.
  intros Hid. unfold getInfo. rewrite Hid. cbn [negb]. unfold bind.
  rewrite parseMovie_unfold. cbn [py_get assoc String.eqb Ascii.eqb Bool.eqb].
  cbv zeta.
  destruct (truthy (rcatch _ VNone)); cbn [negb]; [| reflexivity].
  destruct (parseMovie_body E _ extended) as [v | e] eqn:Hbody; [| reflexivity].
  apply parseMovie_body_record in Hbody.
  destruct Hbody as (md & title & rest & -> & _).
  unfold ret, py_or. cbn [fst]. now rewrite dict_set_truthy.
Qed.

Lemma getInfo_of_answer_witness :
  fst (getInfo offline_world (VInt 603) true []) = Ok (VDict []).
Proof.
  apply (getInfo_of_answer offline_world (VInt 603) true []). reflexivity.
Defined.

(** ** The fields of a record *)

Lemma assoc_not_in (k : string) (d : dict) :
  ~ In k (map fst d) -> assoc k d = None.
Proof.
  induction d as [| [k' v'] d IH]; simpl; [reflexivity |].
  intros H. destruct (String.eqb k k') eqn:Hk.
  - apply String.eqb_eq in Hk. subst. contradiction H. now left.
  - apply IH. intros Hin. apply H. now right.
Qed.

(** Filtering on truth keeps the entry of a key when its value is true,
    in a dictionary whose keys are distinct. *)
Lemma assoc_keep_truthy (k : string) (d : dict) :
  NoDup (map fst d) ->
  assoc k (keep_truthy d) =
  match assoc k d with
  | Some v => if truthy v then Some v else None
  | None => None
  end.
Proof.
  induction d as [| [k' v'] d IH]; intros Hnd; [reflexivity |].
  cbn [map fst] in Hnd. inversion Hnd as [| ? ? Hnotin Hnd']; subst.
  unfold keep_truthy in *. cbn [filter snd assoc].
  destruct (String.eqb k k') eqn:Hk.
  - apply String.eqb_eq in Hk. subst k'.
    destruct (truthy v') eqn:Hv; cbn [assoc].
    + now rewrite String.eqb_refl.
    + rewrite IH by assumption. now rewrite (assoc_not_in k d Hnotin).
  - destruct (truthy v'); cbn [assoc]; [rewrite Hk |]; now apply IH.
Qed.

Lemma parseMovie_body_fields (E : Runtime) (movie : value) (extended : bool)
    (record : dict) :
  parseMovie_body E movie extended = Ok (VDict record) ->
  exists d gathered,
    movie = VDict d /\
    (extended = false -> gathered = ([], [])) /\
    (extended = true ->
     exists casts cast items,
       py_get movie "casts" (VDict []) = Ok casts /\
       py_get casts "cast" (VList []) = Ok cast /\
       iterate cast = Ok items /\
       gathered = gather_cast E items [] []) /\
    forall k, k <> "titles" ->
      let get := fun key => match assoc key d with Some x => x | None => VNone end in
      assoc k record =
      match
        assoc k
          [("type", VStr "movie");
           ("via_tmdb", VBool true);
           ("tmdb_id", get "id");
           ("titles", VList [VStr (toUnicode E (get "title"))]);
           ("original_title", VStr (toUnicode E (get "title")));
           ("images",
            VDict
              [("poster", image_list (getImage E movie "poster" "w154"));
               ("poster_original", image_list (getImage E movie "poster" "original"));
               ("backdrop_original",
                image_list (getImage E movie "backdrop" "original"));
               ("actors", VDict (snd gathered));
               ("extra_thumbs",
                VList (map VStr (if extended
                                 then getMultImages E movie "backdrops" "original"
                                 else [])))]);
           ("imdb", get "imdb_id");
           ("runtime", get "runtime");
           ("released", VStr (py_str E (get "release_date")));
           ("year", tryInt (derive_year E (get "release_date")) VNone);
           ("plot", get "overview");
           ("genres",
            VList (rcatch
                     (gs <- py_get movie "genres" (VList []) ;
                      items <- iterate gs ;
                      rmap (fun genre => py_get genre "name" VNone) items)%result
                     []));
           ("collection", VNone);
           ("actor_roles", VDict (fst gathered))]
      with
      | Some v => if truthy v then Some v else None
      | None => None
      end.
Proof.
  unfold parseMovie_body. intros H. rinv.
  destruct movie as [| | | | | d]; try discriminate Ha.
  exists d, a0. split; [reflexivity |].
  split; [intros ->; now apply Ok_inj in Ha0 |].
  split.
  { intros ->. rinv. subst a0. eauto 10. }
  cbn [py_get] in Ha, Ha1, Ha2, Ha3, Ha4, Ha5, Ha6.
  apply Ok_inj in Ha, Ha1, Ha2, Ha3, Ha4, Ha5, Ha6. subst a a1 a2 a3 a4 a5 a6.
  apply (f_equal (fun v => match v with VDict r => r | _ => [] end)) in H.
  cbv beta iota in H. subst record.
  intros k Hk. rewrite assoc_dict_set_other by exact Hk.
  rewrite assoc_keep_truthy.
  - replace (getattr_name
               match assoc "belongs_to_collection" d with
               | Some x => x
               | None => VNone
               end VNone) with VNone
      by (destruct (assoc "belongs_to_collection" d) as [[| | | | |] |]; reflexivity).
    reflexivity.
  - cbn [map fst]. repeat constructor; cbn [In]; intuition discriminate.
Qed.

Lemma getMultImages_length (E : Runtime) (movie : value) (type size : string) :
  List.length (getMultImages E movie type size) <= 4.
Proof.
  unfold getMultImages.
  destruct (py_get movie "images" (VDict [])) as [images | e]; cbn [rbind rcatch];
    [| simpl; lia].
  destruct (py_get images type (VList [])) as [gallery | e]; cbn [rbind rcatch];
    [| simpl; lia].
  destruct gallery; cbn [rcatch]; try (simpl; lia);
    rewrite length_map; unfold slice_1_5; apply firstn_le_length.
Qed.

Lemma image_list_length (url : string) :
  exists l, image_list url = VList l /\ List.length l <= 1.
Proof.
  unfold image_list. destruct (truthy (VStr url)); eexists; split;
    try reflexivity; simpl; lia.
Qed.

(** X8.  Every record has the type "movie", the mark [via_tmdb], and an
    [images] bundle with exactly the keys poster, poster_original,
    backdrop_original, actors and extra_thumbs, where each of the first
    three holds at most one URL and extra_thumbs at most four. *)
Theorem record_fixed_fields (E : Runtime) (movie : value) (extended : bool)
    (record : dict) :
  parseMovie_body E movie extended = Ok (VDict record) ->
  assoc "type" record = Some (VStr "movie") /\
  assoc "via_tmdb" record = Some (VBool true) /\
  exists images thumbs,
    assoc "images" record = Some (VDict images) /\
    map fst images =
      ["poster"; "poster_original"; "backdrop_original"; "actors"; "extra_thumbs"] /\
    (forall k, In k ["poster"; "poster_original"; "backdrop_original"] ->
               exists l, assoc k images = Some (VList l) /\ List.length l <= 1) /\
    assoc "extra_thumbs" images = Some (VList thumbs) /\
    List.length thumbs <= 4.
Proof.
  intros H. apply parseMovie_body_fields in H.
  destruct H as (d & gathered & -> & _ & _ & Hfields).
  split; [apply (Hfields "type"); discriminate |].
  split; [apply (Hfields "via_tmdb"); discriminate |].
  eexists. eexists.
  split; [apply (Hfields "images"); discriminate |].
  split; [reflexivity |].
  split.
  - intros k [<- | [<- | [<- | []]]]; cbn [assoc String.eqb Ascii.eqb Bool.eqb];
      match goal with
      | |- context [image_list ?u] =>
          destruct (image_list_length u) as (l & -> & Hl); eauto
      end.
  - split; [reflexivity |].
    rewrite length_map. destruct extended; [apply getMultImages_length | simpl; lia].
Qed.

Lemma record_fixed_fields_witness :
  assoc "type" matrix_record = Some (VStr "movie") /\
  assoc "via_tmdb" matrix_record = Some (VBool true) /\
  exists images thumbs,
    assoc "images" matrix_record = Some (VDict images) /\
    map fst images =
      ["poster"; "poster_original"; "backdrop_original"; "actors"; "extra_thumbs"] /\
    (forall k, In k ["poster"; "poster_original"; "backdrop_original"] ->
               exists l, assoc k images = Some (VList l) /\ List.length l <= 1) /\
    assoc "extra_thumbs" images = Some (VList thumbs) /\
    List.length thumbs <= 4.
Proof.
  apply (record_fixed_fields matrix_world matrix_payload false).
  vm_compute. reflexivity.
Defined.

(** X9.  The identifier, the IMDB identifier, the runtime and the plot of
    a record are the payload's [id], [imdb_id], [runtime] and [overview]
    when these are true, and are left out otherwise. *)
Theorem record_passes_fields (E : Runtime) (d : dict) (extended : bool)
    (record : dict) :
  parseMovie_body E (VDict d) extended = Ok (VDict record) ->
  forall key source,
    In (key, source)
      [("tmdb_id", "id"); ("imdb", "imdb_id"); ("runtime", "runtime");
       ("plot", "overview")] ->
    assoc key record =
    match assoc source d with
    | Some v => if truthy v then Some v else None
    | None => None
    end.
Proof.
  intros H key source Hin. apply parseMovie_body_fields in H.
  destruct H as (d' & gathered & Hd & _ & _ & Hfields).
  apply (f_equal (fun v => match v with VDict r => r | _ => [] end)) in Hd.
  cbv beta iota in Hd. subst d'.
  cbn [In] in Hin.
  destruct Hin as [Hin | [Hin | [Hin | [Hin | []]]]];
    injection Hin as <- <-;
    (rewrite Hfields by discriminate);
    cbn [assoc String.eqb Ascii.eqb Bool.eqb];
    match goal with
    | |- context [assoc ?s d] => destruct (assoc s d); reflexivity
    end.
Qed.

Lemma record_passes_fields_witness :
  assoc "runtime" matrix_record = Some (VInt 136) /\
  assoc "imdb" matrix_record = None.
Proof.
  pose proof (record_passes_fields matrix_world
                [("id", VInt 603);
                 ("title", VStr "Matrix");
                 ("release_date", VStr "1999-03-30");
                 ("poster_path", VStr "/matrix.jpg");
                 ("runtime", VInt 136);
                 ("belongs_to_collection",
                  VDict [("id", VInt 2344); ("name", VStr "The Matrix Collection")]);
                 ("alternative_titles",
                  VDict [("titles", VList [VDict [("title", VStr "Matrix")];
                                           VDict [("title", VStr "None")]])])]
                false matrix_record eq_refl) as H.
  split.
  - apply (H "runtime" "runtime"). simpl. auto.
  - apply (H "imdb" "imdb_id"). simpl. auto.
Defined.

(** X10.  A record of the non-extended pass has no [actor_roles], no
    headshots and no extra thumbs. *)
Theorem record_nonextended (E : Runtime) (movie : value) (record : dict) :
  parseMovie_body E movie false = Ok (VDict record) ->
  assoc "actor_roles" record = None /\
  exists images,
    assoc "images" record = Some (VDict images) /\
    assoc "actors" images = Some (VDict []) /\
    assoc "extra_thumbs" images = Some (VList []).
Proof.
  intros H. apply parseMovie_body_fields in H.
  destruct H as (d & gathered & -> & Hg & _ & Hfields).
  rewrite (Hg eq_refl) in Hfields.
  split; [apply (Hfields "actor_roles"); discriminate |].
  eexists. split; [apply (Hfields "images"); discriminate |].
  split; reflexivity.
Qed.

Lemma record_nonextended_witness :
  assoc "actor_roles" matrix_record = None /\
  exists images,
    assoc "images" matrix_record = Some (VDict images) /\
    assoc "actors" images = Some (VDict []) /\
    assoc "extra_thumbs" images = Some (VList []).
Proof.
  apply (record_nonextended matrix_world matrix_payload). vm_compute. reflexivity.
Defined.

(** X11.  A payload without [release_date] gets the text "None" as
    [released] and no [year]. *)
Theorem record_without_release_date (E : Runtime) (d : dict) (extended : bool)
    (record : dict) :
  parseMovie_body E (VDict d) extended = Ok (VDict record) ->
  assoc "release_date" d = None ->
  assoc "released" record = Some (VStr "None") /\ assoc "year" record = None.
Proof.
  intros H Hrd. apply parseMovie_body_fields in H.
  destruct H as (d' & gathered & Hd & _ & _ & Hfields).
  apply (f_equal (fun v => match v with VDict r => r | _ => [] end)) in Hd.
  cbv beta iota in Hd. subst d'.
  split; rewrite Hfields by discriminate;
    cbn [assoc String.eqb Ascii.eqb Bool.eqb]; rewrite Hrd; reflexivity.
Qed.

Lemma record_without_release_date_witness :
  exists record,
    parseMovie_body matrix_world
      (VDict [("id", VInt 604); ("title", VStr "Matrix Reloaded")]) false =
    Ok (VDict record) /\
    assoc "released" record = Some (VStr "None") /\ assoc "year" record = None.
Proof.
  eexists. split; [vm_compute; reflexivity |].
  eapply (record_without_release_date matrix_world
            [("id", VInt 604); ("title", VStr "Matrix Reloaded")] false).
  - vm_compute. reflexivity.
  - reflexivity.
Defined.

(** X12.  The [year] of a record, when it has one, is the integer that
    the first four characters of the text of the release date spell; it is
    not 0, and it is not 1900 when these characters are ASCII. *)
Theorem record_year (E : Runtime) (d : dict) (extended : bool) (record : dict)
    (year : value) :
  parseMovie_body E (VDict d) extended = Ok (VDict record) ->
  assoc "year" record = Some year ->
  exists release_date n,
    assoc "release_date" d = Some release_date /\
    year = VInt n /\
    py_int (first4 (py_str E release_date)) = Some n /\
    n <> 0%Z /\
    (ascii_only (first4 (py_str E release_date)) = true -> n <> 1900%Z).
Proof.
  intros H Hyear. apply parseMovie_body_fields in H.
  destruct H as (d' & gathered & Hd & _ & _ & Hfields).
  apply (f_equal (fun v => match v with VDict r => r | _ => [] end)) in Hd.
  cbv beta iota in Hd. subst d'.
  rewrite Hfields in Hyear by discriminate.
  cbn [assoc String.eqb Ascii.eqb Bool.eqb] in Hyear.
  destruct (assoc "release_date" d) as [rd |]; [| discriminate].
  exists rd. unfold derive_year, py_or in Hyear.
  destruct (truthy rd) eqn:Hrd; cbn [negb orb] in Hyear; [| discriminate].
  destruct (String.eqb (first4 (py_str E rd)) "1900") eqn:H1900; cbn [orb] in Hyear;
    [discriminate |].
  destruct (String.eqb (lower (first4 (py_str E rd))) "none"); [discriminate |].
  cbn [tryInt] in Hyear.
  destruct (py_int (first4 (py_str E rd))) as [n |] eqn:Hn; [| discriminate].
  exists n. cbn [truthy] in Hyear.
  destruct (Z.eqb n 0) eqn:Hzero; cbn [negb] in Hyear; [discriminate |].
  apply Z.eqb_neq in Hzero. injection Hyear as <-.
  repeat split; auto.
  intros _ ->. apply py_int_1900 in Hn; [| apply first4_length].
  apply String.eqb_neq in H1900. contradiction.
Qed.

Lemma record_year_witness :
  exists release_date n,
    assoc "release_date"
      [("id", VInt 603); ("title", VStr "Matrix"); ("release_date", VStr "1999-03-30")]
    = Some release_date /\
    VInt 1999 = VInt n /\
    py_int (first4 (py_str matrix_world release_date)) = Some n /\
    n <> 0%Z /\
    (ascii_only (first4 (py_str matrix_world release_date)) = true -> n <> 1900%Z).
Proof.
  eapply (record_year matrix_world
            [("id", VInt 603); ("title", VStr "Matrix");
             ("release_date", VStr "1999-03-30")] false).
  - vm_compute. reflexivity.
  - reflexivity.
Defined.

Lemma rmap_raises {A B : Type} (f : A -> result B) (l : list A) (x : A) :
  In x l -> (exists e, f x = Raise e) -> exists e, rmap f l = Raise e.
Proof.
  intros Hin Hx. induction l as [| a l IH]; [contradiction |].
  cbn [rmap]. destruct (f a) as [b | e] eqn:Hfa; cbn [rbind]; [| eauto].
  destruct Hin as [-> | Hin].
  - destruct Hx as [e Hx]. congruence.
  - destruct (IH Hin) as [e ->]. cbn. eauto.
Qed.

(** X13.  One genre entry that is no dictionary costs the record all its
    genres. *)
Theorem record_genres_malformed (E : Runtime) (d : dict) (extended : bool)
    (record : dict) (genres : list value) (genre : value) :
  parseMovie_body E (VDict d) extended = Ok (VDict record) ->
  assoc "genres" d = Some (VList genres) ->
  In genre genres ->
  (forall g, genre <> VDict g) ->
  assoc "genres" record = None.
Proof.
  intros H Hgenres Hin Hbad. apply parseMovie_body_fields in H.
  destruct H as (d' & gathered & Hd & _ & _ & Hfields).
  apply (f_equal (fun v => match v with VDict r => r | _ => [] end)) in Hd.
  cbv beta iota in Hd. subst d'.
  rewrite Hfields by discriminate.
  cbn [assoc String.eqb Ascii.eqb Bool.eqb py_get rbind iterate].
  rewrite Hgenres. cbn [rbind iterate].
  destruct (rmap_raises (fun g => py_get g "name" VNone) genres genre Hin) as [e He].
  { destruct genre; try (eexists; reflexivity). now contradiction (Hbad d0). }
  rewrite He. reflexivity.
Qed.

Lemma record_genres_malformed_witness :
  exists record,
    parseMovie_body matrix_world
      (VDict [("title", VStr "Matrix");
              ("genres", VList [VDict [("name", VStr "Action")]; VStr "Drama"])]) false =
    Ok (VDict record) /\
    assoc "genres" record = None.
Proof.
  eexists. split; [vm_compute; reflexivity |].
  eapply (record_genres_malformed matrix_world
            [("title", VStr "Matrix");
             ("genres", VList [VDict [("name", VStr "Action")]; VStr "Drama"])]
            false _ [VDict [("name", VStr "Action")]; VStr "Drama"] (VStr "Drama")).
  - vm_compute. reflexivity.
  - reflexivity.
  - simpl. auto.
  - discriminate.
Defined.

(** X14.  When every genre entry is a dictionary, the genres of the record
    are their names in the order of the payload, [None] for an entry
    without name. *)
Theorem record_genres (E : Runtime) (d : dict) (extended : bool)
    (record : dict) (genre : dict) (genres : list dict) :
  parseMovie_body E (VDict d) extended = Ok (VDict record) ->
  assoc "genres" d = Some (VList (map VDict (genre :: genres))) ->
  assoc "genres" record =
  Some (VList (map (fun g => match assoc "name" g with Some x => x | None => VNone end)
                 (genre :: genres))).
Proof.
  intros H Hgenres. apply parseMovie_body_fields in H.
  destruct H as (d' & gathered & Hd & _ & _ & Hfields).
  apply (f_equal (fun v => match v with VDict r => r | _ => [] end)) in Hd.
  cbv beta iota in Hd. subst d'.
  rewrite Hfields by discriminate.
  cbn [assoc String.eqb Ascii.eqb Bool.eqb py_get rbind iterate].
  rewrite Hgenres. cbn [rbind iterate].
  assert (Hnames :
            rmap (fun g => py_get g "name" VNone) (map VDict (genre :: genres)) =
            Ok (map (fun g => match assoc "name" g with Some x => x | None => VNone end)
                  (genre :: genres))).
  { generalize (genre :: genres). intros l.
    induction l as [| g l IH]; [reflexivity |].
    cbn [map rmap py_get rbind]. now rewrite IH. }
  rewrite Hnames. reflexivity.
Qed.

Lemma record_genres_witness :
  assoc "genres" extended_record =
  Some (VList [VStr "Action"; VStr "Science Fiction"]).
Proof.
  apply (record_genres matrix_world extended_fields true extended_record
           [("id", VInt 28); ("name", VStr "Action")]
           [[("id", VInt 878); ("name", VStr "Science Fiction")]]).
  - vm_compute. reflexivity.
  - reflexivity.
Defined.

(** ** The cast *)

Lemma gather_cast_skip (E : Runtime) (cast_item : value) (rest : list value)
    (actors images_actors : dict) :
  (forall c, cast_item <> VDict c) ->
  gather_cast E (cast_item :: rest) actors images_actors =
  gather_cast E rest actors images_actors.
Proof.
  intros Hbad. cbn [gather_cast].
  destruct cast_item; try reflexivity. now contradiction (Hbad d).
Qed.

Lemma gather_cast_app (E : Runtime) (before after : list value) :
  forall actors images_actors,
    gather_cast E (before ++ after) actors images_actors =
    gather_cast E after
      (fst (gather_cast E before actors images_actors))
      (snd (gather_cast E before actors images_actors)).
Proof.
  induction before as [| cast_item before IH]; intros actors images_actors;
    [reflexivity |].
  cbn [app gather_cast].
  destruct (_ <- _ ; _)%result as [[name character] | e]; apply IH.
Qed.

(** X15.  A cast entry that is no dictionary is skipped: the cast gives
    the same roles and headshots as without it. *)
Theorem cast_skips_malformed (E : Runtime) (before after : list value)
    (cast_item : value) :
  (forall c, cast_item <> VDict c) ->
  gather_cast E (before ++ cast_item :: after) [] [] =
  gather_cast E (before ++ after) [] [].
Proof.
  intros Hbad. rewrite !gather_cast_app. now apply gather_cast_skip.
Qed.

Lemma cast_skips_malformed_witness :
  gather_cast matrix_world
    ([VDict [("name", VStr "Keanu Reeves"); ("character", VStr "Neo")]]
       ++ VStr "broken" :: [VDict [("name", VStr "Carrie-Anne Moss")]]) [] [] =
  gather_cast matrix_world
    ([VDict [("name", VStr "Keanu Reeves"); ("character", VStr "Neo")]]
       ++ [VDict [("name", VStr "Carrie-Anne Moss")]]) [] [].
Proof.
  apply (cast_skips_malformed matrix_world). discriminate.
Defined.

Lemma dict_set_keys (d d' : dict) (k : string) (v v' : value) :
  map fst d = map fst d' ->
  map fst (dict_set d k v) = map fst (dict_set d' k v').
Proof.
  revert d'. induction d as [| [k0 v0] d IH]; intros [| [k1 v1] d'] H;
    try discriminate; [reflexivity |].
  cbn [map fst] in H. injection H as <- H.
  cbn [dict_set]. destruct (String.eqb k k0); cbn [map fst]; f_equal; auto.
Qed.

Lemma gather_cast_keys (E : Runtime) (cast : list value) :
  forall actors images_actors,
    map fst actors = map fst images_actors ->
    map fst (fst (gather_cast E cast actors images_actors)) =
    map fst (snd (gather_cast E cast actors images_actors)).
Proof.
  induction cast as [| cast_item cast IH]; intros actors images_actors H;
    [exact H |].
  cbn [gather_cast].
  destruct (_ <- _ ; _)%result as [[name character] | e]; apply IH;
    [now apply dict_set_keys | exact H].
Qed.

(** X16.  In a record of the extended pass the headshots are kept under
    the same actor names as the roles; the roles are left out of the
    record when the cast gave none. *)
Theorem record_cast_names (E : Runtime) (movie : value) (record : dict) :
  parseMovie_body E movie true = Ok (VDict record) ->
  exists roles headshots images,
    assoc "images" record = Some (VDict images) /\
    assoc "actors" images = Some (VDict headshots) /\
    map fst roles = map fst headshots /\
    assoc "actor_roles" record =
      match roles with [] => None | _ :: _ => Some (VDict roles) end.
Proof.
  intros H. apply parseMovie_body_fields in H.
  destruct H as (d & gathered & -> & _ & Hg & Hfields).
  destruct (Hg eq_refl) as (casts & cast & items & _ & _ & _ & ->).
  pose proof (gather_cast_keys E items [] [] eq_refl) as Hkeys.
  destruct (gather_cast E items [] []) as [roles headshots].
  cbn [fst snd] in Hkeys, Hfields.
  exists roles, headshots.
  eexists. split; [apply (Hfields "images"); discriminate |].
  split; [reflexivity |].
  split; [exact Hkeys |].
  rewrite Hfields by discriminate. destruct roles; reflexivity.
Qed.

Lemma record_cast_names_witness :
  exists roles headshots images,
    assoc "images" extended_record = Some (VDict images) /\
    assoc "actors" images = Some (VDict headshots) /\
    map fst roles = map fst headshots /\
    assoc "actor_roles" extended_record =
      match roles with [] => None | _ :: _ => Some (VDict roles) end.
Proof.
  apply (record_cast_names matrix_world extended_payload extended_record).
  vm_compute. reflexivity.
Defined.

(** ** Alternative titles *)

Lemma add_alternate_titles_members (items : list value) :
  forall (titles out : list string),
    add_alternate_titles items titles = Ok out ->
    forall s,
      In s out <->
      In s titles \/
      exists alt,
        In (VDict alt) items /\ assoc "title" alt = Some (VStr s) /\
        s <> "" /\ lower s <> "none".
Proof.
  induction items as [| item items IH]; intros titles out H s.
  - apply Ok_inj in H. subst out. split; [auto |].
    intros [Hin | (alt & [] & _)]. exact Hin.
  - cbn [add_alternate_titles] in H. rinv.
    destruct item as [| | | | | alt]; try discriminate Ha.
    cbn [py_get] in Ha. apply Ok_inj in Ha.
    assert (Hthis : forall t, assoc "title" alt = Some (VStr t) -> a = VStr t)
      by (intros t Ht; rewrite Ht in Ha; now subst a).
    destruct (truthy a) eqn:Hta.
    + destruct a as [| | | s0 | |]; try discriminate H.
      assert (Hs0 : assoc "title" alt = Some (VStr s0))
        by (destruct (assoc "title" alt); [congruence | discriminate]).
      assert (Hne : s0 <> "")
        by (intros ->; discriminate Hta).
      destruct (existsb (String.eqb s0) titles) eqn:Hex; cbn [negb andb] in H.
      * rewrite (IH _ _ H s). split.
        -- intros [Hin | (alt' & Hin & Hrest)]; [auto |].
           right. exists alt'. split; [now right | exact Hrest].
        -- intros [Hin | (alt' & [Heq | Hin] & Ht & Hrest)]; [auto | | eauto].
           injection Heq as ->. apply Hthis in Ht. injection Ht as ->.
           left. apply existsb_exists in Hex. destruct Hex as (x & Hx & Hxeq).
           apply String.eqb_eq in Hxeq. now subst x.
      * destruct (String.eqb (lower s0) "none") eqn:Hnone; cbn [negb] in H.
        -- rewrite (IH _ _ H s). split.
           ++ intros [Hin | (alt' & Hin & Hrest)]; [auto |].
              right. exists alt'. split; [now right | exact Hrest].
           ++ intros [Hin | (alt' & [Heq | Hin] & Ht & Hrest)]; [auto | | eauto].
              injection Heq as ->. apply Hthis in Ht. injection Ht as ->.
              apply String.eqb_eq in Hnone. destruct Hrest as [_ Hl]. contradiction.
        -- apply String.eqb_neq in Hnone.
           rewrite (IH _ _ H s). rewrite in_app_iff. split.
           ++ intros [[Hin | [<- | []]] | (alt' & Hin & Hrest)]; [auto | | ].
              ** right. exists alt. split; [now left | auto].
              ** right. exists alt'. split; [now right | exact Hrest].
           ++ intros [Hin | (alt' & [Heq | Hin] & Ht & Hrest)]; [auto | | eauto].
              injection Heq as ->. apply Hthis in Ht. injection Ht as ->.
              left. right. now left.
    + rewrite (IH _ _ H s). split.
      * intros [Hin | (alt' & Hin & Hrest)]; [auto |].
        right. exists alt'. split; [now right | exact Hrest].
      * intros [Hin | (alt' & [Heq | Hin] & Ht & Hrest)]; [auto | | eauto].
        injection Heq as ->. apply Hthis in Ht. rewrite Ht in Hta.
        destruct Hrest as [Hne _]. cbn [truthy] in Hta.
        apply negb_false_iff, String.eqb_eq in Hta. contradiction.
Qed.

Lemma parseMovie_body_titles (E : Runtime) (movie : value) (extended : bool)
    (record : dict) :
  parseMovie_body E movie extended = Ok (VDict record) ->
  exists title alternative alternate_titles items out,
    py_get movie "title" VNone = Ok title /\
    py_get movie "alternative_titles" (VDict []) = Ok alternative /\
    py_get alternative "titles" (VList []) = Ok alternate_titles /\
    iterate alternate_titles = Ok items /\
    add_alternate_titles items [toUnicode E title] = Ok out /\
    assoc "titles" record = Some (VList (map VStr out)).
Proof.
  intros H. pose proof (parseMovie_body_record E movie extended _ H) as Hrec.
  destruct Hrec as (md & title & rest & Hv & Htitle & _ & Horig & _).
  unfold parseMovie_body in H. rinv.
  rewrite Htitle in Ha2. apply Ok_inj in Ha2. subst a2.
  match type of Ha7 with
  | py_getitem (VDict ?m) _ = _ => set (movie_data := m) in *
  end.
  assert (Ha7' : a7 = VStr (toUnicode E title)).
  { cbn [py_getitem] in Ha7.
    destruct (assoc "original_title" movie_data) as [x |] eqn:Hx; [| discriminate].
    apply Ok_inj in Ha7. subst x.
    apply assoc_In in Hx. apply keep_truthy_In in Hx. destruct Hx as [Hx _].
    split_In Hx. now injection Hx as <-. }
  subst a7. cbn [truthy existsb is_str] in Ha11.
  rewrite String.eqb_refl in Ha11. cbn [orb negb] in Ha11.
  rewrite andb_false_r in Ha11.
  exists title, a8, a9, a10, a11. repeat split; try assumption.
  apply (f_equal (fun v => match v with VDict r => r | _ => [] end)) in H.
  cbv beta iota in H. subst record. apply assoc_dict_set_same.
Qed.

(** X17.  The titles of a record are the payload's title and exactly the
    alternative titles that are text, not empty and not "none" in any
    case. *)
Theorem record_titles_members (E : Runtime) (d : dict) (extended : bool)
    (record : dict) (alternative : dict) (alternate_titles : list value) :
  parseMovie_body E (VDict d) extended = Ok (VDict record) ->
  assoc "alternative_titles" d = Some (VDict alternative) ->
  assoc "titles" alternative = Some (VList alternate_titles) ->
  exists titles,
    assoc "titles" record = Some (VList (map VStr titles)) /\
    forall s,
      In s titles <->
      s = toUnicode E (match assoc "title" d with Some x => x | None => VNone end) \/
      exists alt,
        In (VDict alt) alternate_titles /\ assoc "title" alt = Some (VStr s) /\
        s <> "" /\ lower s <> "none".
Proof.
  intros H Halt Htitles. apply parseMovie_body_titles in H.
  destruct H as (title & alternative' & alts & items & out
                 & Ht & Ha & Hal & Hit & Hadd & Hrec).
  cbn [py_get] in Ht, Ha. rewrite Halt in Ha.
  apply Ok_inj in Ht, Ha. subst title alternative'.
  cbn [py_get] in Hal. rewrite Htitles in Hal. apply Ok_inj in Hal. subst alts.
  cbn [iterate] in Hit. apply Ok_inj in Hit. subst items.
  exists out. split; [exact Hrec |].
  intros s. rewrite (add_alternate_titles_members _ _ _ Hadd s).
  cbn [In]. intuition.
Qed.

Lemma record_titles_members_witness :
  exists titles,
    assoc "titles" extended_record = Some (VList (map VStr titles)) /\
    forall s,
      In s titles <->
      s = toUnicode matrix_world
            (match assoc "title" extended_fields with Some x => x | None => VNone end) \/
      exists alt,
        In (VDict alt)
          [VDict [("title", VStr "The Matrix")]; VDict [("title", VStr "")];
           VDict [("title", VStr "NONE")]; VDict [("title", VStr "The Matrix")]] /\
        assoc "title" alt = Some (VStr s) /\ s <> "" /\ lower s <> "none".
Proof.
  apply (record_titles_members matrix_world extended_fields true extended_record
           [("titles", VList [VDict [("title", VStr "The Matrix")];
                              VDict [("title", VStr "")];
                              VDict [("title", VStr "NONE")];
                              VDict [("title", VStr "The Matrix")]])]).
  - vm_compute. reflexivity.
  - reflexivity.
  - reflexivity.
Defined.

(** ** Image URLs *)

Lemma append_empty (a b : string) : a ++ b = "" -> a = "" /\ b = "".
Proof. destruct a; simpl; [auto | discriminate]. Qed.

(** X18.  For a size that is not empty, [getImage] gives the empty text
    exactly when the payload is no dictionary or the configuration has no
    [images] with a [secure_base_url]; it never raises. *)
Theorem getImage_empty_iff (E : Runtime) (movie : value) (type size : string) :
  size <> "" ->
  (getImage E movie type size = "" <->
   ~ exists d images base,
       movie = VDict d /\
       py_getitem (configuration E) "images" = Ok images /\
       py_getitem images "secure_base_url" = Ok base).
Proof.
  intros Hsize. unfold getImage. split.
  - intros H (d & images & base & -> & Himages & Hbase).
    cbn [py_get rbind] in H. rewrite Himages in H. cbn [rbind] in H.
    rewrite Hbase in H. cbn [rbind rcatch] in H.
    apply append_empty in H. destruct H as [_ H].
    apply append_empty in H. destruct H as [H _]. contradiction.
  - intros H.
    destruct movie as [| | | | | d]; try reflexivity.
    cbn [py_get rbind].
    destruct (py_getitem (configuration E) "images") as [images | e] eqn:Himages;
      [| reflexivity].
    cbn [rbind].
    destruct (py_getitem images "secure_base_url") as [base | e] eqn:Hbase;
      [| reflexivity].
    contradiction H. eauto 10.
Qed.

Lemma getImage_empty_iff_witness :
  getImage matrix_world (VStr "/matrix.jpg") "poster" "w154" = "" <->
  ~ exists d images base,
      VStr "/matrix.jpg" = VDict d /\
      py_getitem (configuration matrix_world) "images" = Ok images /\
      py_getitem images "secure_base_url" = Ok base.
Proof.
  apply (getImage_empty_iff matrix_world (VStr "/matrix.jpg") "poster" "w154").
  discriminate.
Defined.

(** X19.  [getMultImages] never gives more than four URLs, and from a
    gallery that is a list it builds them from the second to the fifth
    entry: the first entry is never used. *)
Theorem getMultImages_skips_first (E : Runtime) (movie : value) (type size : string) :
  List.length (getMultImages E movie type size) <= 4 /\
  forall d images first gallery,
    movie = VDict d ->
    assoc "images" d = Some (VDict images) ->
    assoc type images = Some (VList (first :: gallery)) ->
    getMultImages E movie type size =
    map (fun image => getImage E image "file" size) (firstn 4 gallery).
Proof.
  split; [apply getMultImages_length |].
  intros d images first gallery -> Himages Htype.
  unfold getMultImages. cbn [py_get rbind]. rewrite Himages. cbn [py_get rbind].
  rewrite Htype. reflexivity.
Qed.

Lemma getMultImages_skips_first_witness :
  getMultImages matrix_world extended_payload "backdrops" "original" =
  map (fun image => getImage matrix_world image "file" "original")
    (firstn 4 [VDict [("file_path", VStr "/b1.jpg")];
               VDict [("file_path", VStr "/b2.jpg")];
               VDict [("file_path", VStr "/b3.jpg")];
               VDict [("file_path", VStr "/b4.jpg")];
               VDict [("file_path", VStr "/b5.jpg")]]).
Proof.
  apply (proj2 (getMultImages_skips_first matrix_world extended_payload
                  "backdrops" "original")
           extended_fields
           [("backdrops",
             VList [VDict [("file_path", VStr "/b0.jpg")];
                    VDict [("file_path", VStr "/b1.jpg")];
                    VDict [("file_path", VStr "/b2.jpg")];
                    VDict [("file_path", VStr "/b3.jpg")];
                    VDict [("file_path", VStr "/b4.jpg")];
                    VDict [("file_path", VStr "/b5.jpg")]])]
           (VDict [("file_path", VStr "/b0.jpg")]));
    reflexivity.
Defined.

(** ** request and config *)

(** X20.  A fetch that raises makes [request] return [None], whatever the
    return key, after the one URL it asked. *)
Theorem request_swallows_fetch_failure (E : Runtime) (call : string) (params : dict)
    (return_key : option string) (st : trace) (e : exn) :
  getJsonData E st (url_with E call (keep_truthy params)) = Raise e ->
  request E call params return_key st =
  (Ok VNone, (st ++ [url_with E call (keep_truthy params)])%list).
Proof.
  intros H. rewrite <- api_url_with in H |- *.
  unfold request, bind, try_except, fetch, ret. rewrite H.
  destruct return_key; reflexivity.
Qed.

Lemma request_swallows_fetch_failure_witness :
  request offline_world "movie/603" [("append_to_response", VStr "")] (Some "results") [] =
  (Ok VNone,
   ([] ++ [url_with offline_world "movie/603"
             (keep_truthy [("append_to_response", VStr "")])])%list).
Proof.
  apply (request_swallows_fetch_failure offline_world "movie/603"
           [("append_to_response", VStr "")] (Some "results") [] IOError).
  reflexivity.
Defined.

(** X21.  When the answer is a dictionary, [request] with a return key
    gives the value under that key, and the whole answer when the key is
    missing. *)
Theorem request_return_key_of_dict (E : Runtime) (call : string) (params : dict)
    (key : string) (st : trace) (answer : dict) :
  key <> "" ->
  getJsonData E st (url_with E call (keep_truthy params)) = Ok (VDict answer) ->
  fst (request E call params (Some key) st) =
  Ok (match assoc key answer with Some v => v | None => VDict answer end).
Proof.
  intros Hkey H. rewrite <- api_url_with in H.
  unfold request, bind, try_except, fetch, ret, lift. rewrite H.
  assert (Htk : truthy (VStr key) = true)
    by (cbn; apply String.eqb_neq in Hkey; now rewrite Hkey).
  rewrite Htk, andb_true_r.
  destruct answer as [| kv answer]; [reflexivity |].
  cbn [truthy py_in].
  destruct (assoc key (kv :: answer)) as [v |] eqn:Hassoc.
  - rewrite (assoc_existsb _ _ _ Hassoc). cbn [py_get fst]. now rewrite Hassoc.
  - assert (Hex : existsb (fun kv0 => String.eqb key (fst kv0)) (kv :: answer) = false).
    { clear - Hassoc. induction (kv :: answer) as [| [k' v'] l IH]; [reflexivity |].
      cbn [assoc] in Hassoc. cbn [existsb fst].
      destruct (String.eqb key k'); [discriminate |]. now apply IH. }
    rewrite Hex. reflexivity.
Qed.

Lemma request_return_key_of_dict_witness :
  fst (request matrix_world "search/movie" [("query", VStr "Matrix");
                                            ("search_type", VStr "ngram")]
         (Some "results") []) =
  Ok (VList (map (fun i => VDict [("id", VInt i)]) [603; 604; 605]%Z)).
Proof.
  apply (request_return_key_of_dict matrix_world "search/movie"
           [("query", VStr "Matrix"); ("search_type", VStr "ngram")] "results" []
           [("page", VInt 1);
            ("results", VList (map (fun i => VDict [("id", VInt i)]) [603; 604; 605]%Z))]).
  - discriminate.
  - reflexivity.
Defined.

(** X22.  [config] asks the URL of [configuration] with no parameter of
    its own and never raises; it keeps the configuration it had when the
    fetch raises or has no true answer, and takes the answer otherwise. *)
Theorem config_keeps_on_failure (E : Runtime) (st : trace) :
  config E st =
  (Ok (let answer := rcatch (getJsonData E st (url_with E "configuration" [])) VNone in
       if truthy answer then answer else configuration E),
   (st ++ [url_with E "configuration" []])%list).
Proof.
  unfold config, bind. rewrite request_no_key.
  change (keep_truthy []) with (@nil (string * value)). rewrite api_url_with.
  reflexivity.
Qed.

Lemma config_keeps_on_failure_witness :
  config offline_world [] =
  (Ok default_configuration,
   ["http://api.themoviedb.org/3/configuration?api_key=k&language=de"]).
Proof. exact (config_keeps_on_failure offline_world []). Defined.

(** X23.  When the configuration request is answered by a true value
    without [images], such as an error object, [config] takes it, and with
    that configuration every image URL is empty. *)
Theorem config_without_images (E : Runtime) (st : trace) (answer : value) :
  getJsonData E st (url_with E "configuration" []) = Ok answer ->
  truthy answer = true ->
  (forall images, py_getitem answer "images" <> Ok images) ->
  fst (config E st) = Ok answer /\
  forall movie type size, getImage (with_configuration E answer) movie type size = "".
Proof.
  intros Hanswer Ht Himages. split.
  - rewrite <- api_url_with in Hanswer.
    unfold config, bind. rewrite request_no_key.
    change (keep_truthy []) with (@nil (string * value)).
    rewrite Hanswer. cbn [rcatch ret fst]. now rewrite Ht.
  - intros movie type size. unfold getImage. cbn [configuration with_configuration].
    destruct (py_get movie (type ++ "_path") VNone) as [path | e]; [| reflexivity].
    cbn [rbind].
    destruct (py_getitem answer "images") as [images | e] eqn:Hi; [| reflexivity].
    now contradiction (Himages images).
Qed.

Lemma config_without_images_witness :
  fst (config misconfigured_world []) = Ok error_answer /\
  forall movie type size,
    getImage (with_configuration misconfigured_world error_answer) movie type size = "".
Proof.
  apply (config_without_images misconfigured_world [] error_answer).
  - reflexivity.
  - reflexivity.
  - intros images. discriminate.
Defined.

(** ** isMovie *)

(** X24.  With an identifier [isMovie] asks one URL and nothing guards
    the call: an exception of the fetch is the outcome of [isMovie], and a
    true answer that is no dictionary raises AttributeError. *)
Theorem isMovie_unguarded (E : Runtime) (identifier : value) (adding : bool)
    (st : trace) :
  truthy identifier = true ->
  snd (isMovie E identifier adding st) =
    (st ++ [is_movie_url E identifier adding])%list /\
  (forall e, getJsonData E st (is_movie_url E identifier adding) = Raise e ->
             fst (isMovie E identifier adding st) = Raise e) /\
  (forall data,
      getJsonData E st (is_movie_url E identifier adding) = Ok data ->
      truthy data = true ->
      (forall d, data <> VDict d) ->
      fst (isMovie E identifier adding st) = Raise AttributeError).
Proof.
  intros Hid. unfold isMovie. rewrite Hid. cbn [negb]. cbv zeta.
  unfold bind, fetch, lift, ret.
  destruct (getJsonData E st (is_movie_url E identifier adding)) as [data | e] eqn:Hd.
  - split; [destruct (truthy data); reflexivity |].
    split; [discriminate |].
    intros data' Hdata Ht Hbad. apply Ok_inj in Hdata. subst data'. rewrite Ht.
    destruct data; try reflexivity. now contradiction (Hbad d).
  - split; [reflexivity |]. split; [| discriminate].
    intros e' He. injection He as ->. reflexivity.
Qed.

Lemma isMovie_unguarded_witness :
  isMovie offline_world (VStr "tt0133093") false [] =
  (Raise IOError, ["https://api.couchpota.to/ismovie/tt0133093/"]).
Proof.
  destruct (isMovie_unguarded offline_world (VStr "tt0133093") false [] eq_refl)
    as (Hsnd & Hraise & _).
  specialize (Hraise IOError eq_refl).
  destruct (isMovie offline_world (VStr "tt0133093") false []) as [r t].
  cbn [fst snd] in *. now subst.
Defined.

(** ** The identifier header *)

Lemma substring_0_prefix (n : nat) (s : string) :
  prefix (substring 0 n s) s = true.
Proof.
  revert s. induction n as [| n IH]; intros [| c s]; cbn; try reflexivity.
  destruct (ascii_dec c c) as [_ | Hne]; [apply IH | now contradiction Hne].
Qed.

Lemma substring_0_min (n : nat) (s : string) :
  String.length (substring 0 n s) = Nat.min n (String.length s).
Proof.
  revert s. induction n as [| n IH]; intros [| c s]; cbn; try reflexivity.
  now rewrite IH.
Qed.

Lemma substring_0_all (n : nat) (s : string) :
  String.length s <= n -> substring 0 n s = s.
Proof.
  revert s. induction n as [| n IH]; intros [| c s]; cbn; intros H;
    try reflexivity; try lia.
  f_equal. apply IH. lia.
Qed.

(** X25.  The identifier header is "+" followed by the first ten
    characters of the key: it is the whole key exactly when the key has at
    most ten characters. *)
Theorem request_identifier_prefix (core_api_key : string) :
  exists head,
    request_identifier core_api_key = "+" ++ head /\
    prefix head core_api_key = true /\
    String.length head = Nat.min 10 (String.length core_api_key) /\
    (head = core_api_key <-> String.length core_api_key <= 10).
Proof.
  exists (substring 0 10 core_api_key).
  split; [reflexivity |].
  split; [apply substring_0_prefix |].
  split; [apply substring_0_min |].
  split.
  - intros H. rewrite <- H at 1. rewrite substring_0_min. lia.
  - apply substring_0_all.
Qed.

Lemma request_identifier_prefix_witness :
  exists head,
    request_identifier "9b939aee0aaafc12a65bf448e4af9543" = "+" ++ head /\
    prefix head "9b939aee0aaafc12a65bf448e4af9543" = true /\
    String.length head =
      Nat.min 10 (String.length "9b939aee0aaafc12a65bf448e4af9543") /\
    (head = "9b939aee0aaafc12a65bf448e4af9543" <->
     String.length "9b939aee0aaafc12a65bf448e4af9543" <= 10).
Proof. exact (request_identifier_prefix "9b939aee0aaafc12a65bf448e4af9543"). Defined.

(** ** Failures that search and parseMovie let through *)

(** X26.  When the search request is answered by a dictionary that is not
    empty and has no [results], [search] raises AttributeError after that
    one request. *)
Theorem search_answer_without_results (E : Runtime) (q : string) (limit : Z)
    (st : trace) (d answer : dict) :
  let url :=
    api_url E "search/movie"
      (tryUrlencode E
         (keep_truthy
            [("query", match assoc "name" d with Some x => x | None => VStr q end);
             ("year", match assoc "year" d with Some x => x | None => VNone end);
             ("search_type", VStr (if Z.ltb 1 limit then "ngram" else "phrase"))])) in
  conf_api_key E <> "" ->
  scanner_name_year E q = Ok (VDict d) ->
  getJsonData E st url = Ok (VDict answer) ->
  answer <> [] ->
  assoc "results" answer = None ->
  search E q limit st = (Raise AttributeError, (st ++ [url])%list).
Proof.
  intros url Hkey Hscan Hanswer Hne Hresults.
  assert (Hdis : isDisabled E = false) by (now apply String.eqb_neq).
  unfold search. rewrite Hdis.
  unfold bind at 1. unfold try_except at 1. unfold bind at 1. unfold lift at 1.
  rewrite Hscan. unfold bind at 1. unfold lift at 1. cbn [py_get].
  unfold bind at 1. unfold lift at 1.
  unfold request. unfold bind at 1. unfold try_except at 1. unfold fetch at 1.
  fold url. rewrite Hanswer.
  assert (Ht : truthy (VDict answer) = true) by (destruct answer; [contradiction | reflexivity]).
  rewrite Ht. cbn [andb truthy String.eqb Ascii.eqb Bool.eqb negb].
  unfold bind at 1. unfold lift at 1. cbn [py_in].
  assert (Hex : existsb (fun kv => String.eqb "results" (fst kv)) answer = false).
  { clear - Hresults. induction answer as [| [k' v'] l IH]; [reflexivity |].
    cbn [assoc] in Hresults. cbn [existsb fst].
    destruct (String.eqb "results" k'); [discriminate |]. now apply IH. }
  rewrite Hex. unfold ret at 1. rewrite Ht.
  destruct answer as [| [k v] answer]; [contradiction |].
  reflexivity.
Qed.

Lemma search_answer_without_results_witness :
  search error_world "Matrix" 3 [] =
  (Raise AttributeError, [search_url "Matrix" "ngram"]).
Proof.
  apply (search_answer_without_results error_world "Matrix" 3 []
           [("name", VStr "Matrix")]
           [("status_code", VInt 34);
            ("status_message", VStr "The resource could not be found.")]);
    try reflexivity; discriminate.
Defined.

(** X27.  A dictionary payload whose title is the empty text makes the
    non-extended normalization raise KeyError. *)
Theorem parseMovie_body_empty_title (E : Runtime) (d : dict) :
  assoc "title" d = Some (VStr "") ->
  parseMovie_body E (VDict d) false = Raise KeyError.
Proof.
  intros Htitle. unfold parseMovie_body. cbn [py_get rbind fst snd].
  rewrite Htitle. cbn [toUnicode py_str].
  match goal with
  | |- context [py_getitem (VDict (keep_truthy ?l)) "original_title"] =>
      assert (Hassoc : assoc "original_title" (keep_truthy l) = None)
  end.
  { rewrite assoc_keep_truthy; [reflexivity |].
    cbn [map fst]. repeat constructor; cbn [In]; intuition discriminate. }
  cbn [py_getitem]. rewrite Hassoc. reflexivity.
Qed.

Lemma parseMovie_body_empty_title_witness :
  parseMovie_body matrix_world (VDict [("id", VInt 605); ("title", VStr "")]) false =
  Raise KeyError.
Proof.
  apply (parseMovie_body_empty_title matrix_world
           [("id", VInt 605); ("title", VStr "")]).
  reflexivity.
Defined.

(** X28.  A payload without [title] gets the text "None" as its original
    title and as its first title. *)
Theorem record_without_title (E : Runtime) (d : dict) (extended : bool)
    (record : dict) :
  parseMovie_body E (VDict d) extended = Ok (VDict record) ->
  assoc "title" d = None ->
  assoc "original_title" record = Some (VStr "None") /\
  exists rest, assoc "titles" record = Some (VList (VStr "None" :: rest)).
Proof.
  intros H Htitle.
  pose proof (parseMovie_body_record E _ _ _ H) as Hrec.
  destruct Hrec as (md & title & rest & Hv & Ht & _ & Horig & _).
  cbn [py_get] in Ht. rewrite Htitle in Ht. apply Ok_inj in Ht. subst title.
  apply (f_equal (fun v => match v with VDict r => r | _ => [] end)) in Hv.
  cbv beta iota in Hv. subst record.
  split.
  - rewrite assoc_dict_set_other by discriminate. exact Horig.
  - rewrite assoc_dict_set_same. cbn [map toUnicode py_str]. eauto.
Qed.

Lemma record_without_title_witness :
  exists record,
    parseMovie_body matrix_world (VDict [("id", VInt 1)]) false = Ok (VDict record) /\
    assoc "original_title" record = Some (VStr "None") /\
    exists rest, assoc "titles" record = Some (VList (VStr "None" :: rest)).
Proof.
  eexists. split; [vm_compute; reflexivity |].
  eapply (record_without_title matrix_world [("id", VInt 1)] false).
  - vm_compute. reflexivity.
  - reflexivity.
Defined.
